(** * KubeUtil: kubelet discovery, authenticated queries and extractors

    A shallow embedding of [utils/kubernetes/kubeutil.py] (class [KubeUtil])
    and the properties of its endpoint discovery, request signing and
    response extraction.

    Python values are embedded as [pyval]; a Python [dict] read from JSON or
    YAML is an association list whose order is the dict's iteration order.
    Code that can raise returns a [result]; methods run in the monad [M],
    which reads the [World] (environment, files, network), threads the
    attributes of the object and appends every request sent to a log. *)

From Stdlib Require Import ZArith String Ascii.
From stdpp Require Import base option list strings pretty gmap.

(** ** Python values *)

#[local] Set Warnings "-register-all".

Inductive pyval : Type :=
| PNone
| PBool (b : bool)
| PInt (n : Z)
| PStr (s : string)
| PList (l : list pyval)
| PTuple (l : list pyval)
| PDict (d : list (string * pyval)).

Abbreviation dict := (list (string * pyval)).

(** Exceptions raised by the code and by the libraries it calls. All are
    subclasses of Python's [Exception]. *)
Inductive exn : Type :=
| AttributeError
| TypeError
| KeyError
| IndexError
| ValueError
| IOError
| RequestException (reason : string)
| HTTPError (status : Z)
| Exception (msg : string).

Inductive result (A : Type) : Type :=
| Ok (a : A)
| Raise (e : exn).
Arguments Ok {A} a.
Arguments Raise {A} e.

#[global] Instance result_ret : MRet result := fun _ a => Ok a.
#[global] Instance result_bind : MBind result := fun _ _ f r =>
  match r with
  | Ok a => f a
  | Raise e => Raise e
  end.

Definition is_ok {A} (r : result A) : bool :=
  match r with Ok _ => true | Raise _ => false end.

(** ** Strings *)

Definition ascii_lower (c : ascii) : ascii :=
  let n := nat_of_ascii c in
  if (65 <=? n)%nat && (n <=? 90)%nat then ascii_of_nat (n + 32) else c.

(** [url.lower()] for the test [url.lower().startswith('https')] of
    [perform_kubelet_query]: the ASCII letters are lowered, other bytes are
    kept. No character outside A-Z lowers to one of h, t, p, s, so the test
    cannot tell this from the interpreter's [lower]. The strings of events
    are lowered by [unicode_lower] instead. *)
Fixpoint lower (s : string) : string :=
  match s with
  | EmptyString => EmptyString
  | String c r => String (ascii_lower c) (lower r)
  end.

(** [s.startswith(p)] *)
Fixpoint startswith (p s : string) : bool :=
  match p, s with
  | EmptyString, _ => true
  | String a p', String b s' => if Ascii.eqb a b then startswith p' s' else false
  | String _ _, EmptyString => false
  end.

(** [p in s] for two strings: [p] occurs in [s] as a substring. *)
Fixpoint str_contains (p s : string) : bool :=
  startswith p s ||
  match s with
  | EmptyString => false
  | String _ s' => str_contains p s'
  end.

(** [s.split(sep)] for a one-character separator. *)
Fixpoint split_go (sep : ascii) (cur : string) (s : string) : list string :=
  match s with
  | EmptyString => [String.rev cur]
  | String c r =>
      if Ascii.eqb c sep then String.rev cur :: split_go sep EmptyString r
      else split_go sep (String c cur) r
  end.
Definition split (sep : ascii) (s : string) : list string :=
  split_go sep EmptyString s.

(** [s.lstrip(c)] for a one-character set. *)
Fixpoint lstrip (c : ascii) (s : string) : string :=
  match s with
  | String a r => if Ascii.eqb a c then lstrip c r else s
  | EmptyString => EmptyString
  end.

Fixpoint chars (s : string) : list string :=
  match s with
  | EmptyString => []
  | String c r => String c EmptyString :: chars r
  end.

(** ** Operations of the Python object model *)

(** Truth value of an object. *)
Definition truthy (v : pyval) : bool :=
  match v with
  | PNone => false
  | PBool b => b
  | PInt n => negb (n =? 0)%Z
  | PStr s => negb (String.eqb s "")
  | PList l | PTuple l => match l with [] => false | _ => true end
  | PDict d => match d with [] => false | _ => true end
  end.

(** [a or b] *)
Definition py_or (a b : pyval) : pyval := if truthy a then a else b.

Fixpoint dict_lookup (d : dict) (k : string) : option pyval :=
  match d with
  | [] => None
  | (k', v) :: d' => if String.eqb k' k then Some v else dict_lookup d' k
  end.

(** [k in d] *)
Definition dict_has (d : dict) (k : string) : bool :=
  match dict_lookup d k with Some _ => true | None => false end.

(** [d.get(k, dflt)] and [d.get(k)] on a dict. *)
Definition dict_get_default (d : dict) (k : string) (dflt : pyval) : pyval :=
  match dict_lookup d k with Some v => v | None => dflt end.
Definition dict_get (d : dict) (k : string) : pyval := dict_get_default d k PNone.

(** [v.get(k, dflt)] on any object: only dicts have the method. *)
Definition py_get_default (v : pyval) (k : string) (dflt : pyval) : result pyval :=
  match v with
  | PDict d => Ok (dict_get_default d k dflt)
  | _ => Raise AttributeError
  end.
Definition py_get (v : pyval) (k : string) : result pyval := py_get_default v k PNone.

(** [v[k]] for a string key. *)
Definition py_getitem (v : pyval) (k : string) : result pyval :=
  match v with
  | PDict d => match dict_lookup d k with Some x => Ok x | None => Raise KeyError end
  | _ => Raise TypeError
  end.

(** [v[0]] *)
Definition py_first (v : pyval) : result pyval :=
  match v with
  | PList l | PTuple l => match l with x :: _ => Ok x | [] => Raise IndexError end
  | PStr s => match chars s with c :: _ => Ok (PStr c) | [] => Raise IndexError end
  | PDict _ => Raise KeyError
  | _ => Raise TypeError
  end.

(** [len(v)] *)
Definition py_len (v : pyval) : result nat :=
  match v with
  | PList l | PTuple l => Ok (length l)
  | PDict d => Ok (length d)
  | PStr s => Ok (String.length s)
  | _ => Raise TypeError
  end.

(** The elements a [for] loop over [v] visits. *)
Definition py_iter (v : pyval) : result (list pyval) :=
  match v with
  | PList l | PTuple l => Ok l
  | PDict d => Ok (map (fun kv => PStr kv.1) d)
  | PStr s => Ok (map PStr (chars s))
  | _ => Raise TypeError
  end.

(** [v.iteritems()] *)
Definition py_iteritems (v : pyval) : result dict :=
  match v with
  | PDict d => Ok d
  | _ => Raise AttributeError
  end.

(** [k in v] for a string [k]: key of a dict, element of a list or tuple,
    substring of a string. *)
Definition py_contains (k : string) (v : pyval) : result bool :=
  match v with
  | PDict d => Ok (dict_has d k)
  | PList l | PTuple l =>
      Ok (existsb (fun x => match x with PStr s => String.eqb s k | _ => false end) l)
  | PStr s => Ok (str_contains k s)
  | _ => Raise TypeError
  end.

(** The standard library's [urlparse.urljoin] and [urllib.quote_plus], the
    rendering of lists, tuples and dicts by [str], and the [lower] method of
    the interpreter's strings, which lowers every cased character of a
    unicode string and not only A-Z. The code only calls them; nothing is
    assumed about them. *)
Class PyLib : Type := {
  urljoin : string -> string -> string;
  quote_plus : string -> string;
  repr_compound : pyval -> string;
  unicode_lower : string -> string
}.

Section KubeUtil.

Context {lib : PyLib}.

(** [str(v)], which is what ['%s' % v] and ['{}'.format(v)] insert. *)
Definition py_str (v : pyval) : string :=
  match v with
  | PNone => "None"
  | PBool true => "True"
  | PBool false => "False"
  | PInt n => pretty n
  | PStr s => s
  | _ => repr_compound v
  end.

(** ['...%s' % v] with the single operand [v]: a tuple operand is the
    argument list, so it must hold exactly one value. *)
Definition py_fmt_s (v : pyval) : result string :=
  match v with
  | PTuple [x] => Ok (py_str x)
  | PTuple _ => Raise TypeError
  | _ => Ok (py_str v)
  end.

(** [v.lower()] *)
Definition py_lower (v : pyval) : result string :=
  match v with
  | PStr s => Ok (unicode_lower s)
  | _ => Raise AttributeError
  end.

(** ** Response extractors *)

(** The [defaultdict(list)] the labels are collected in. *)
Definition dd_get (m : gmap string (list string)) (k : string) : list string :=
  default [] (m !! k).

(** [kube_labels[key].append(tag)] *)
Definition dd_append (m : gmap string (list string)) (k tag : string)
  : gmap string (list string) :=
  <[k := dd_get m k ++ [tag]]> m.

Definition kube_tag (k : string) (v : pyval) : string :=
  "kube_" +:+ k +:+ ":" +:+ py_str v.

(** The inner loop of [extract_kube_labels], over [labels.iteritems()]. *)
Fixpoint add_labels (excluded_keys : list string) (key : string) (labels : dict)
    (kube_labels : gmap string (list string)) : gmap string (list string) :=
  match labels with
  | [] => kube_labels
  | (k, v) :: rest =>
      if bool_decide (k ∈ excluded_keys)
      then add_labels excluded_keys key rest kube_labels
      else add_labels excluded_keys key rest (dd_append kube_labels key (kube_tag k v))
  end.

(** The body of the loop over [pod_items]. *)
Definition extract_pod_labels (excluded_keys : list string)
    (kube_labels : gmap string (list string)) (pod : pyval)
  : result (gmap string (list string)) :=
  metadata ← py_get_default pod "metadata" (PDict []);
  name ← py_get metadata "name";
  namespace ← py_get metadata "namespace";
  labels ← py_get metadata "labels";
  if truthy name && truthy labels && truthy namespace then
    let key := py_str namespace +:+ "/" +:+ py_str name in
    items ← py_iteritems labels;
    Ok (add_labels excluded_keys key items kube_labels)
  else Ok kube_labels.

Fixpoint extract_pods (excluded_keys : list string) (pod_items : list pyval)
    (kube_labels : gmap string (list string)) : result (gmap string (list string)) :=
  match pod_items with
  | [] => Ok kube_labels
  | pod :: rest =>
      kube_labels' ← extract_pod_labels excluded_keys kube_labels pod;
      extract_pods excluded_keys rest kube_labels'
  end.

Definition extract_kube_labels (pods_list : pyval) (excluded_keys : option (list string))
  : result (gmap string (list string)) :=
  let excluded_keys := default [] excluded_keys in
  items ← py_get pods_list "items";
  pod_items ← py_iter (py_or items (PList []));
  extract_pods excluded_keys pod_items ∅.

(** [extract_event_tags]: the four [if] statements in order. *)
Definition extract_event_tags (event : dict) : result (list string) :=
  let tags := [] in
  tags ← (if dict_has event "reason" then
            r ← py_lower (dict_get_default event "reason" (PStr ""));
            Ok (tags ++ ["reason:" +:+ r])
          else Ok tags);
  has_ns ← py_contains "namespace" (dict_get_default event "metadata" (PDict []));
  tags ← (if has_ns : bool then
            md ← py_getitem (PDict event) "metadata";
            ns ← py_getitem md "namespace";
            ns ← py_fmt_s ns;
            Ok (tags ++ ["namespace:" +:+ ns])
          else Ok tags);
  has_host ← py_contains "host" (dict_get_default event "source" (PDict []));
  tags ← (if has_host : bool then
            src ← py_getitem (PDict event) "source";
            h ← py_getitem src "host";
            h ← py_fmt_s h;
            Ok (tags ++ ["node_name:" +:+ h])
          else Ok tags);
  has_kind ← py_contains "kind" (dict_get_default event "involvedObject" (PDict []));
  tags ← (if has_kind : bool then
            io ← py_getitem (PDict event) "involvedObject";
            kind ← py_get_default io "kind" (PStr "");
            k ← py_lower kind;
            Ok (tags ++ ["object_type:" +:+ k])
          else Ok tags);
  Ok tags.

(** ** The world outside the process *)

(** The arguments of one [requests.get] call. [req_headers] and
    [req_params] are [None] when the argument is Python's [None] or is not
    passed. *)
Record Request : Type := mkRequest {
  req_url : string;
  req_timeout : Z;
  req_verify : pyval;
  req_cert : pyval;
  req_headers : option (list (string * string));
  req_params : option dict
}.

(** What the caller sees of a response: its status and the value [r.json()]
    parses from the body ([None] when the body is not JSON). *)
Record Response : Type := mkResponse {
  status_code : Z;
  json_body : option pyval
}.

(** What one method call finds outside the process. Two calls may run in
    two different worlds: tokens rotate, servers come and go. *)
Record World : Type := mkWorld {
  (** [os.environ.get] *)
  environ : string -> option string;
  (** [os.path.exists] on a path *)
  path_exists : string -> bool;
  (** contents of [AUTH_TOKEN_PATH]; [None] when opening it raises IOError *)
  auth_token_file : option string;
  (** [DockerUtil().get_hostname()] *)
  docker_hostname : string;
  (** [check_yaml(get_conf_path('kubernetes'))['instances'][0]]; [None] when
      loading the file raises *)
  yaml_instance : option dict;
  (** [requests.get]: a response of any status, or an exception (connection
      error, timeout, TLS failure) *)
  requests_get : Request -> result Response
}.

(** The mutable state: the attributes of the [KubeUtil] object (its
    [__dict__]) and the log of the requests issued so far. *)
Record State : Type := mkState {
  self : gmap string pyval;
  log : list Request
}.

Definition M (A : Type) : Type := World -> State -> result A * State.

#[global] Instance M_ret : MRet M := fun _ a _ st => (Ok a, st).
#[global] Instance M_bind : MBind M := fun _ _ f m w st =>
  match m w st with
  | (Ok a, st') => f a w st'
  | (Raise e, st') => (Raise e, st')
  end.

Definition raise {A} (e : exn) : M A := fun _ st => (Raise e, st).

Definition lift {A} (r : result A) : M A := fun _ st => (r, st).

(** [try: m  except Exception as e: handler e] *)
Definition try_except {A} (m : M A) (handler : exn -> M A) : M A := fun w st =>
  match m w st with
  | (Ok a, st') => (Ok a, st')
  | (Raise e, st') => handler e w st'
  end.

Definition ask : M World := fun w st => (Ok w, st).

(** [self.name] and [self.name = v] *)
Definition getattr (name : string) : M pyval := fun _ st =>
  (match self st !! name with Some v => Ok v | None => Raise AttributeError end, st).
Definition setattr (name : string) (v : pyval) : M unit := fun _ st =>
  (Ok (), {| self := <[name := v]> (self st); log := log st |}).

Definition as_str (v : pyval) : result string :=
  match v with PStr s => Ok s | _ => Raise TypeError end.

(** [requests.get(...)]: the call is logged, then answered by the world. *)
Definition do_requests_get (r : Request) : M Response := fun w st =>
  (requests_get w r, {| self := self st; log := log st ++ [r] |}).

(** [os.environ.get(name)] as a Python value. *)
Definition os_environ_get (w : World) (name : string) : pyval :=
  match environ w name with Some s => PStr s | None => PNone end.

(** [os.path.exists(v)]: [os.stat] refuses anything that is not a string. *)
Definition os_path_exists (w : World) (v : pyval) : result bool :=
  match v with
  | PStr s => Ok (path_exists w s)
  | _ => Raise TypeError
  end.

(** [r.raise_for_status()] of the requests library: HTTPError for the
    client-error and server-error classes. *)
Definition raise_for_status (r : Response) : result unit :=
  if (400 <=? status_code r)%Z && (status_code r <? 600)%Z
  then Raise (HTTPError (status_code r)) else Ok ().

(** [r.json()] *)
Definition response_json (r : Response) : result pyval :=
  match json_body r with Some v => Ok v | None => Raise ValueError end.

(** [urllib.urlencode] of a dict with string values. *)
Definition urlencode (query : list (string * string)) : string :=
  String.concat "&" (map (fun kv => quote_plus kv.1 +:+ "=" +:+ quote_plus kv.2) query).

(** ['%d' % v] *)
Definition py_fmt_d (v : pyval) : result string :=
  match v with
  | PInt n => Ok (pretty n)
  | PBool b => Ok (if b then "1" else "0")
  | _ => Raise TypeError
  end.

(** [d[k] = v] on a dict: replace in place, or add as the last key. *)
Fixpoint dict_set (d : dict) (k : string) (v : pyval) : dict :=
  match d with
  | [] => [(k, v)]
  | (k', v') :: d' =>
      if String.eqb k' k then (k', v) :: d' else (k', v') :: dict_set d' k v
  end.

(** ** Class [KubeUtil] *)

Definition DEFAULT_TLS_VERIFY : pyval := PBool true.
Definition DEFAULT_METHOD : string := "http".
Definition KUBELET_HEALTH_PATH : string := "/healthz".
Definition MACHINE_INFO_PATH : string := "/api/v1.3/machine/".
Definition METRICS_PATH : string := "/api/v1.3/subcontainers/".
Definition PODS_LIST_PATH : string := "/pods/".
Definition DEFAULT_CADVISOR_PORT : Z := 4194.
Definition DEFAULT_HTTP_KUBELET_PORT : Z := 10255.
Definition DEFAULT_HTTPS_KUBELET_PORT : Z := 10250.
Definition DEFAULT_MASTER_NAME : string := "kubernetes".
Definition CA_CRT_PATH : string := "/run/secrets/kubernetes.io/serviceaccount/ca.crt".
Definition AUTH_TOKEN_PATH : string := "/run/secrets/kubernetes.io/serviceaccount/token".

(** [get_auth_token]: the token file is read on every call; an IOError is
    logged and [None] returned. *)
Definition get_auth_token : M pyval :=
  w ← ask;
  mret (match auth_token_file w with
        | Some token => PStr token
        | None => PNone
        end).

Definition _init_tls_settings (instance : dict) : M pyval :=
  w ← ask;
  let tls_settings : dict := [] in
  let client_crt := dict_get instance "kubelet_client_crt" in
  let client_key := dict_get instance "kubelet_client_key" in
  use_cert ← lift (if truthy client_crt && truthy client_key then
                     crt_exists ← os_path_exists w client_crt;
                     if crt_exists : bool then os_path_exists w client_key else Ok false
                   else Ok false);
  let tls_settings :=
    if use_cert : bool
    then dict_set tls_settings "kubelet_client_cert" (PTuple [client_crt; client_key])
    else tls_settings in
  let cert := dict_get instance "kubelet_cert" in
  let tls_settings :=
    if truthy cert then dict_set tls_settings "verify" cert
    else dict_set tls_settings "verify"
           (dict_get_default instance "kubelet_tls_verify" DEFAULT_TLS_VERIFY) in
  mret (PDict tls_settings).

Definition bearer (token : pyval) : list (string * string) :=
  [("Authorization", "Bearer " +:+ py_str token)].

(** [perform_kubelet_query(url, verbose, timeout)]; the callers in this class
    leave [verbose=True] and [timeout=10]. *)
Definition perform_kubelet_query (url : string) (verbose : pyval) (timeout : Z)
  : M Response :=
  tls_context ← getattr "tls_settings";
  let headers := None in
  cert ← lift (py_get tls_context "kubelet_client_cert");
  verify ← lift (py_get_default tls_context "verify" DEFAULT_TLS_VERIFY);
  headers ← (if negb (truthy cert) && startswith "https" (lower url) then
               token ← get_auth_token;
               mret (Some (bearer token))
             else mret headers);
  do_requests_get {| req_url := url; req_timeout := timeout; req_verify := verify;
                     req_cert := cert; req_headers := headers;
                     req_params := Some [("verbose", verbose)] |}.

(** [retrieve_json_auth(url, auth_token, timeout, verify)]; [verify] is
    [PNone] when the argument is left out. *)
Definition retrieve_json_auth (url : string) (auth_token : pyval) (timeout : Z)
    (verify : pyval) : M pyval :=
  w ← ask;
  let verify :=
    match verify with
    | PNone => if path_exists w CA_CRT_PATH then PStr CA_CRT_PATH else PBool false
    | _ => verify
    end in
  let headers := bearer auth_token in
  r ← do_requests_get {| req_url := url; req_timeout := timeout; req_verify := verify;
                         req_cert := PNone; req_headers := Some headers;
                         req_params := None |};
  _ ← lift (raise_for_status r);
  lift (response_json r).

(** The loop of [get_node_hostname] over the node's addresses. *)
Fixpoint find_hostname_address (addresses : list pyval) : result pyval :=
  match addresses with
  | [] => Ok PNone
  | address :: rest =>
      ty ← py_get address "type";
      match ty with
      | PStr "Hostname" => py_getitem address "address"
      | _ => find_hostname_address rest
      end
  end.

(** Lines 161-168 of [get_node_hostname]: the hostname in the answer of the
    apiserver. *)
Definition node_hostname (node : pyval) : result pyval :=
  items ← py_getitem node "items";
  n ← py_len items;
  if negb (n =? 1)%nat then Ok PNone
  else
    items ← py_get_default (py_or node (PDict [])) "items" (PList [PDict []]);
    first ← py_first items;
    status ← py_get_default first "status" (PDict []);
    addresses ← py_get_default status "addresses" (PList []);
    addresses ← py_iter addresses;
    find_hostname_address addresses.

Definition get_node_hostname (host : string) : M pyval :=
  let node_filter := [("labelSelector", "kubernetes.io/hostname=" +:+ host)] in
  api_url ← getattr "kubernetes_api_url";
  api_url ← lift (as_str api_url);
  token ← get_auth_token;
  node ← retrieve_json_auth (api_url +:+ "/nodes?" +:+ urlencode node_filter)
           token 10 PNone;
  lift (node_hostname node).

(** Lines 119-132 of [_locate_kubelet]: the host to probe. *)
Definition locate_host (instance : dict) : M pyval :=
  w ← ask;
  let host := py_or (os_environ_get w "KUBERNETES_KUBELET_HOST") (dict_get instance "host") in
  if negb (truthy host) then
    let docker_hostname := docker_hostname w in
    tls_settings ← getattr "tls_settings";
    verify ← lift (py_getitem tls_settings "verify");
    if truthy verify then
      try_except
        (k8s_hostname ← get_node_hostname docker_hostname;
         mret (py_or k8s_hostname (PStr docker_hostname)))
        (fun ex => mret (PStr docker_hostname))
    else mret (PStr docker_hostname)
  else mret host.

Definition no_auth_url (instance : dict) (host : pyval) : string :=
  let port := dict_get_default instance "kubelet_port" (PInt DEFAULT_HTTP_KUBELET_PORT) in
  "http://" +:+ py_str host +:+ ":" +:+ py_str port.

Definition https_url (instance : dict) (host : pyval) : string :=
  let port := dict_get_default instance "kubelet_port" (PInt DEFAULT_HTTPS_KUBELET_PORT) in
  "https://" +:+ py_str host +:+ ":" +:+ py_str port.

(** Lines 133-149 of [_locate_kubelet]: the two probes. The first [return]
    sits inside the [try]; the second probe runs when the first raised. *)
Definition probe_kubelet (instance : dict) (host : pyval) : M string :=
  found ← try_except
            (let no_auth_url := no_auth_url instance host in
             let test_url := urljoin no_auth_url KUBELET_HEALTH_PATH in
             _ ← perform_kubelet_query test_url (PBool true) 10;
             mret (Some no_auth_url))
            (fun ex => mret None);
  match found with
  | Some url => mret url
  | None =>
      let https_url := https_url instance host in
      let test_url := urljoin https_url KUBELET_HEALTH_PATH in
      _ ← perform_kubelet_query test_url (PBool true) 10;
      mret https_url
  end.

Definition _locate_kubelet (instance : dict) : M string :=
  host ← locate_host instance;
  probe_kubelet instance host.

Definition retrieve_pods_list : M pyval :=
  url ← getattr "pods_list_url";
  url ← lift (as_str url);
  r ← perform_kubelet_query url (PBool true) 10;
  lift (response_json r).

Definition get_kube_labels (excluded_keys : option (list string))
  : M (gmap string (list string)) :=
  pods ← retrieve_pods_list;
  lift (extract_kube_labels pods excluded_keys).

(** [name == self.host_name], where [self.host_name] is what
    [os.environ.get] returned: [None] or a string. *)
Definition eq_host_name (name host_name : pyval) : bool :=
  match host_name, name with
  | PNone, PNone => true
  | PStr h, PStr n => String.eqb n h
  | _, _ => false
  end.

(** The loop of [_fetch_host_data] over [pod_items]; it stops at the first
    pod whose name is the host name. *)
Fixpoint scan_pods (pod_items : list pyval) : M unit :=
  match pod_items with
  | [] => mret ()
  | pod :: rest =>
      metadata ← lift (py_get_default pod "metadata" (PDict []));
      name ← lift (py_get metadata "name");
      host_name ← getattr "host_name";
      if eq_host_name name host_name then
        status ← lift (py_get_default pod "status" (PDict []));
        spec ← lift (py_get_default pod "spec" (PDict []));
        node_ip ← lift (py_get_default status "hostIP" (PStr ""));
        _ ← setattr "_node_ip" node_ip;
        node_name ← lift (py_get_default spec "nodeName" (PStr ""));
        setattr "_node_name" node_name
      else scan_pods rest
  end.

Definition _fetch_host_data : M unit :=
  pod_items ← try_except
                 (pods ← retrieve_pods_list;
                  items ← lift (py_get pods "items");
                  mret (Some (py_or items (PList []))))
                 (fun e => mret None);
  match pod_items with
  | None => mret ()
  | Some pod_items =>
      pod_items ← lift (py_iter pod_items);
      scan_pods pod_items
  end.

Definition is_none (v : pyval) : bool :=
  match v with PNone => true | _ => false end.

Definition get_node_info : M (pyval * pyval) :=
  node_ip ← getattr "_node_ip";
  node_name ← getattr "_node_name";
  _ ← (if is_none node_ip || is_none node_name then _fetch_host_data else mret ());
  node_ip ← getattr "_node_ip";
  node_name ← getattr "_node_name";
  mret (node_ip, node_name).

(** [__init__(instance)]. The [DockerUtil] collaborator it stores first is
    part of the [World]; with no [instance], the first instance of the
    configuration file is used, and the empty dict when loading it raises. *)
Definition __init__ (instance : option dict) : M unit :=
  w ← ask;
  let instance :=
    match instance with
    | Some instance => instance
    | None => default [] (yaml_instance w)
    end in
  _ ← setattr "method" (dict_get_default instance "method" (PStr DEFAULT_METHOD));
  _ ← setattr "_node_ip" PNone;
  _ ← setattr "_node_name" PNone;
  _ ← setattr "host_name" (os_environ_get w "HOSTNAME");
  _ ← setattr "kubernetes_api_url"
        (PStr ("https://" +:+
               py_str (py_or (os_environ_get w "KUBERNETES_SERVICE_HOST")
                             (PStr DEFAULT_MASTER_NAME)) +:+ "/api/v1"));
  tls_settings ← _init_tls_settings instance;
  _ ← setattr "tls_settings" tls_settings;
  _ ← try_except
        (url ← _locate_kubelet instance;
         _ ← setattr "kubelet_api_url" (PStr url);
         if negb (truthy (PStr url))
         then raise (Exception "Couldn't find a method to connect to kubelet.")
         else mret ())
        (fun ex => raise ex);
  kubelet_api_url ← getattr "kubelet_api_url";
  kubelet_api_url ← lift (as_str kubelet_api_url);
  kubelet_host ← lift (match split ":" kubelet_api_url with
                       | _ :: part :: _ => Ok (lstrip "/" part)
                       | _ => Raise IndexError
                       end);
  _ ← setattr "kubelet_host" (PStr kubelet_host);
  _ ← setattr "pods_list_url" (PStr (urljoin kubelet_api_url PODS_LIST_PATH));
  _ ← setattr "kube_health_url" (PStr (urljoin kubelet_api_url KUBELET_HEALTH_PATH));
  let cadvisor_port := dict_get_default instance "port" (PInt DEFAULT_CADVISOR_PORT) in
  _ ← setattr "cadvisor_port" cadvisor_port;
  method ← getattr "method";
  port ← lift (py_fmt_d cadvisor_port);
  let cadvisor_url := py_str method +:+ "://" +:+ kubelet_host +:+ ":" +:+ port in
  _ ← setattr "cadvisor_url" (PStr cadvisor_url);
  _ ← setattr "metrics_url" (PStr (urljoin cadvisor_url METRICS_PATH));
  _ ← setattr "machine_info_url" (PStr (urljoin cadvisor_url MACHINE_INFO_PATH));
  setattr "last_event_collection_ts" (PInt 0).

(** A freshly allocated object, before [__init__] runs, and an empty log. *)
Definition fresh : State := {| self := ∅; log := [] |}.

End KubeUtil.

(** ** Specification-side notions *)

Section Specification.

Context {lib : PyLib}.

(** The value at [event[outer][inner]], when [outer] holds an object. *)
Definition nested_field (event : dict) (outer inner : string) : option pyval :=
  match dict_lookup event outer with
  | Some (PDict d) => dict_lookup d inner
  | _ => None
  end.

(** The tags the specification lists for an event, in its order. *)
Definition event_tags (event : dict) : list string :=
  match dict_lookup event "reason" with
  | Some (PStr r) => ["reason:" +:+ unicode_lower r]
  | _ => []
  end ++
  match nested_field event "metadata" "namespace" with
  | Some ns => ["namespace:" +:+ py_str ns]
  | None => []
  end ++
  match nested_field event "source" "host" with
  | Some h => ["node_name:" +:+ py_str h]
  | None => []
  end ++
  match nested_field event "involvedObject" "kind" with
  | Some (PStr k) => ["object_type:" +:+ unicode_lower k]
  | _ => []
  end.

Definition is_str (v : pyval) : bool :=
  match v with PStr _ => true | _ => false end.
Definition is_dict (v : pyval) : bool :=
  match v with PDict _ => true | _ => false end.

(** The field [k] of [d] is absent or satisfies [p]. *)
Definition field_is (p : pyval -> bool) (d : dict) (k : string) : bool :=
  match dict_lookup d k with Some v => p v | None => true end.

Definition not_tuple (v : pyval) : bool :=
  match v with PTuple _ => false | _ => true end.

(** The values of [metadata.namespace] and [source.host] are JSON values:
    no tuple, which JSON cannot hold. *)
Definition plain_fields (event : dict) : bool :=
  match nested_field event "metadata" "namespace" with
  | Some ns => not_tuple ns
  | None => true
  end &&
  match nested_field event "source" "host" with
  | Some h => not_tuple h
  | None => true
  end.

(** An event as the API serves it: [reason] a string, [metadata], [source]
    and [involvedObject] objects, [involvedObject.kind] a string, the
    namespace and the host JSON values. *)
Definition event_typed (event : dict) : bool :=
  field_is is_str event "reason" &&
  field_is is_dict event "metadata" &&
  field_is is_dict event "source" &&
  field_is (fun io => match io with
                      | PDict d => field_is is_str d "kind"
                      | _ => false
                      end) event "involvedObject" &&
  plain_fields event.

(** A probe failed in the sense of the specification: the request raised
    (connection error, timeout) or its answer has a status that is not 2xx. *)
Definition probe_failed (outcome : result Response) : bool :=
  match outcome with
  | Raise _ => true
  | Ok resp => negb ((200 <=? status_code resp)%Z && (status_code resp <? 300)%Z)
  end.

(** The entry a pod item contributes to the label index: its key and its
    tags, when the item has a name, a namespace and a non-empty label map. *)
Definition pod_entry (excluded_keys : list string) (pod : pyval)
  : option (string * list string) :=
  match pod with
  | PDict p =>
      match dict_get_default p "metadata" (PDict []) with
      | PDict md =>
          match dict_get md "labels" with
          | PDict ((_ :: _) as labels) =>
              if truthy (dict_get md "name") && truthy (dict_get md "namespace") then
                Some (py_str (dict_get md "namespace") +:+ "/" +:+ py_str (dict_get md "name"),
                      map (fun kv => "kube_" +:+ kv.1 +:+ ":" +:+ py_str kv.2)
                          (filter (fun kv => kv.1 ∉ excluded_keys) labels))
              else None
          | _ => None
          end
      | _ => None
      end
  | _ => None
  end.

(** The tags a pod item contributes under [key]. *)
Definition tags_for (excluded_keys : list string) (key : string) (pod : pyval)
  : list string :=
  match pod_entry excluded_keys pod with
  | Some (k, tags) => if String.eqb k key then tags else []
  | None => []
  end.

(** The items of a pod list; none when the field is absent, null or empty. *)
Definition pod_items_of (pods_list : pyval) : list pyval :=
  match pods_list with
  | PDict d => match dict_get d "items" with PList l | PTuple l => l | _ => [] end
  | _ => []
  end.

(** A key of the index holds its tags, and is absent when there are none. *)
Definition nonempty_opt (tags : list string) : option (list string) :=
  match tags with [] => None | _ => Some tags end.

(** A pod item as the kubelet serves it: an object whose [metadata] is an
    object and whose [labels] are an object or null. *)
Definition pod_typed (pod : pyval) : bool :=
  match pod with
  | PDict p =>
      field_is (fun md => match md with
                          | PDict md => field_is (fun l => is_dict l || negb (truthy l)) md "labels"
                          | _ => false
                          end) p "metadata"
  | _ => false
  end.

Definition pods_list_typed (pods_list : pyval) : bool :=
  match pods_list with
  | PDict d =>
      match dict_get d "items" with
      | PList l => forallb pod_typed l
      | PNone => true
      | _ => false
      end
  | _ => false
  end.

(** The client-certificate credential of a configuration: its cert path and
    key path, when both are there and both files exist. *)
Definition client_cert_of (w : World) (instance : dict) : option (string * string) :=
  match dict_lookup instance "kubelet_client_crt", dict_lookup instance "kubelet_client_key" with
  | Some (PStr crt), Some (PStr key) =>
      if path_exists w crt && path_exists w key then Some (crt, key) else None
  | _, _ => None
  end.

(** The verification setting of a configuration: the CA certificate path
    when one is configured, else the verify flag, which defaults to true. *)
Definition verify_of (instance : dict) : pyval :=
  match dict_lookup instance "kubelet_cert" with
  | Some ca => if truthy ca then ca else dict_get_default instance "kubelet_tls_verify" (PBool true)
  | None => dict_get_default instance "kubelet_tls_verify" (PBool true)
  end.

(** A configured path is a string, or null. *)
Definition path_typed (instance : dict) (k : string) : bool :=
  field_is (fun v => is_str v || is_none v) instance k.

(** The scheme of a URL: what precedes the first colon, in lower case. *)
Fixpoint url_scheme (url : string) : string :=
  match url with
  | EmptyString => EmptyString
  | String c rest =>
      if Ascii.eqb c ":" then EmptyString else String (ascii_lower c) (url_scheme rest)
  end.

Fixpoint no_colon (s : string) : bool :=
  match s with
  | EmptyString => true
  | String c rest => negb (Ascii.eqb c ":") && no_colon rest
  end.

(** What [get_auth_token] returns in a world. *)
Definition token_of (w : World) : pyval :=
  match auth_token_file w with Some token => PStr token | None => PNone end.

(** The [requests.get] call of [perform_kubelet_query] when [self.tls_settings]
    is [tls]. *)
Definition kubelet_request (w : World) (tls : dict) (url : string) (verbose : pyval)
    (timeout : Z) : Request :=
  let cert := dict_get tls "kubelet_client_cert" in
  {| req_url := url; req_timeout := timeout;
     req_verify := dict_get_default tls "verify" DEFAULT_TLS_VERIFY;
     req_cert := cert;
     req_headers := if negb (truthy cert) && startswith "https" (lower url)
                    then Some (bearer (token_of w)) else None;
     req_params := Some [("verbose", verbose)] |}.

(** The [requests.get] call of [retrieve_json_auth]. *)
Definition json_auth_request (w : World) (url : string) (auth_token : pyval)
    (timeout : Z) (verify : pyval) : Request :=
  {| req_url := url; req_timeout := timeout;
     req_verify := if is_none verify
                   then (if path_exists w CA_CRT_PATH then PStr CA_CRT_PATH else PBool false)
                   else verify;
     req_cert := PNone;
     req_headers := Some [("Authorization", "Bearer " +:+ py_str auth_token)];
     req_params := None |}.

(** The request of [get_node_hostname]: the nodes whose hostname label is
    [host]. *)
Definition node_request (w : World) (api_url host : string) : Request :=
  json_auth_request w
    (api_url +:+ "/nodes?" +:+
     quote_plus "labelSelector" +:+ "=" +:+ quote_plus ("kubernetes.io/hostname=" +:+ host))
    (token_of w) 10 PNone.

(** What the apiserver's answer to [r] yields: the parsed body of a response
    that is not a client or server error. *)
Definition json_answer (w : World) (r : Request) : result pyval :=
  resp ← requests_get w r;
  _ ← raise_for_status resp;
  response_json resp.

(** The two probes of the locator. *)
Definition http_probe (w : World) (tls : dict) (instance : dict) (host : pyval) : Request :=
  kubelet_request w tls (urljoin (no_auth_url instance host) KUBELET_HEALTH_PATH) (PBool true) 10.
Definition https_probe (w : World) (tls : dict) (instance : dict) (host : pyval) : Request :=
  kubelet_request w tls (urljoin (https_url instance host) KUBELET_HEALTH_PATH) (PBool true) 10.

Definition is_kubelet_query (r : Request) : bool :=
  match req_params r with Some _ => true | None => false end.

(** The request of [retrieve_pods_list]. *)
Definition pods_request (w : World) (tls : dict) (url : string) : Request :=
  kubelet_request w tls url (PBool true) 10.

(** What the [try] block of [_fetch_host_data] yields for the answer to [r]:
    the items of the parsed pod list. *)
Definition pod_items_answer (w : World) (r : Request) : result pyval :=
  resp ← requests_get w r;
  pods ← response_json resp;
  items ← py_get pods "items";
  Ok (py_or items (PList [])).

(** The scan passes over [pod]: an object whose metadata is an object and
    whose name is not the host name. *)
Definition passed_over (host_name : pyval) (pod : pyval) : bool :=
  match pod with
  | PDict p =>
      match dict_get_default p "metadata" (PDict []) with
      | PDict md => negb (eq_host_name (dict_get md "name") host_name)
      | _ => false
      end
  | _ => false
  end.

(** The attributes the node-identity queries read. *)
Definition initialised (st : State) (tls : dict) (url : string) (host_name : pyval) : Prop :=
  self st !! "tls_settings" = Some (PDict tls) /\
  self st !! "pods_list_url" = Some (PStr url) /\
  self st !! "host_name" = Some host_name.

(** [st] after the scan stored an identity. *)
Definition with_identity (st : State) (node_ip node_name : pyval) : State :=
  {| self := <["_node_name" := node_name]> (<["_node_ip" := node_ip]> (self st));
     log := log st |}.

(** The part of a string before its first colon. *)
Fixpoint before_colon (s : string) : string :=
  match s with
  | EmptyString => EmptyString
  | String c rest => if Ascii.eqb c ":" then EmptyString else String c (before_colon rest)
  end.

(** An address entry of a node that is not its hostname. *)
Definition other_address (address : pyval) : bool :=
  match address with
  | PDict a => match dict_get a "type" with PStr "Hostname" => false | _ => true end
  | _ => false
  end.

(** A computation that sends no request. *)
Definition silent {A} (m : M A) : Prop :=
  forall w st, log (m w st).2 = log st.

(** [st] with one more request in its log. *)
Definition logged (st : State) (r : Request) : State :=
  {| self := self st; log := log st ++ [r] |}.

End Specification.

(** ** Sample library and inputs *)

(** A stand-in for the library functions, for evaluating the definitions on
    concrete inputs: joining an absolute path to a base without a path, and
    lowering strings that are ASCII. *)
Definition sample_lib : PyLib := {|
  urljoin := fun base path => base +:+ path;
  quote_plus := fun s => s;
  repr_compound := fun _ => "<object>";
  unicode_lower := lower
|}.

Definition killing_event : dict :=
  [("reason", PStr "Killing");
   ("metadata", PDict [("namespace", PStr "ns")]);
   ("source", PDict [("host", PStr "node1")]);
   ("involvedObject", PDict [("kind", PStr "Pod")])].

Definition p1_pods_list : pyval :=
  PDict [("items",
          PList [PDict [("metadata",
                         PDict [("name", PStr "p1"); ("namespace", PStr "ns");
                                ("labels", PDict [("a", PStr "1"); ("b", PStr "2")])])]])].

(** A world with no environment variables and no files except the token,
    whose container runtime reports [node1]; [get] answers the requests. *)
Definition world_of (get : Request -> result Response) : World := {|
  environ := fun _ => None;
  path_exists := fun _ => false;
  auth_token_file := Some "tok";
  docker_hostname := "node1";
  yaml_instance := None;
  requests_get := get
|}.

(** An object holding the attributes the queries read. *)
Definition object_with (tls : dict) : State := {|
  self := {[ "tls_settings" := PDict tls;
             "pods_list_url" := PStr "http://node1:10255/pods/";
             "kubernetes_api_url" := PStr "https://kubernetes/api/v1";
             "host_name" := PStr "p1";
             "_node_ip" := PNone;
             "_node_name" := PNone ]};
  log := []
|}.

Definition refused : result Response := Raise (RequestException "connection refused").

(** A kubelet whose plain port is closed and whose secure port answers 500. *)
Definition refused_then_500 : Request -> result Response :=
  fun r => if startswith "https" (req_url r)
           then Ok {| status_code := 500; json_body := None |}
           else refused.

Definition cert_instance : dict :=
  [("kubelet_client_crt", PStr "/etc/kubelet/client.crt");
   ("kubelet_client_key", PStr "/etc/kubelet/client.key")].

(** [all_refused], with the two files of [cert_instance] on disk. *)
Definition world_with_cert_files : World := {|
  environ := fun _ => None;
  path_exists := fun p => String.eqb p "/etc/kubelet/client.crt" ||
                          String.eqb p "/etc/kubelet/client.key";
  auth_token_file := Some "tok";
  docker_hostname := "node1";
  yaml_instance := None;
  requests_get := fun _ => refused
|}.

Definition answer (status : Z) (body : option pyval) : Request -> result Response :=
  fun _ => Ok {| status_code := status; json_body := body |}.

Definition no_nodes : pyval := PDict [("items", PList [])].

(** The node list the apiserver serves for one node named [name]. *)
Definition one_node (name : string) : pyval :=
  PDict [("items",
          PList [PDict [("status",
                         PDict [("addresses",
                                 PList [PDict [("type", PStr "InternalIP");
                                               ("address", PStr "10.0.0.5")];
                                        PDict [("type", PStr "Hostname");
                                               ("address", PStr name)]])])]])].

Definition node1_instance : dict := [("host", PStr "node1")].

(** A kubelet whose plain port is closed and whose secure port answers. *)
Definition https_only : Request -> result Response :=
  fun r => if startswith "https" (req_url r)
           then Ok {| status_code := 200; json_body := None |}
           else refused.

(** The pod list of the kubelet with the agent's own pod [p1] on [node-a]. *)
Definition node_a_pods : pyval :=
  PDict [("items",
          PList [PDict [("metadata", PDict [("name", PStr "other")]);
                        ("status", PDict [("hostIP", PStr "10.0.0.9")]);
                        ("spec", PDict [("nodeName", PStr "node-b")])];
                 PDict [("metadata", PDict [("name", PStr "p1")]);
                        ("status", PDict [("hostIP", PStr "10.0.0.5")]);
                        ("spec", PDict [("nodeName", PStr "node-a")])]])].

Definition all_refused : World := world_of (fun _ => refused).

(** [object_with], built in a process that has no [HOSTNAME]. *)
Definition object_without_hostname (tls : dict) : State := {|
  self := <["host_name" := PNone]> (self (object_with tls));
  log := []
|}.

Definition pod_named (metadata : dict) (status spec : pyval) : pyval :=
  PDict [("metadata", PDict metadata); ("status", status); ("spec", spec)].

Definition pods_of (pod_items : list pyval) : pyval := PDict [("items", PList pod_items)].

Definition other_pod : pyval :=
  pod_named [("name", PStr "other")] (PDict [("hostIP", PStr "10.0.0.9")])
    (PDict [("nodeName", PStr "node-b")]).

Definition nameless_pod : pyval :=
  pod_named [("namespace", PStr "ns")] (PDict [("hostIP", PStr "10.0.0.7")])
    (PDict [("nodeName", PStr "node-c")]).

Definition null_ip_pod : pyval :=
  pod_named [("name", PStr "p1")] (PDict [("hostIP", PNone)])
    (PDict [("nodeName", PStr "node-a")]).

Definition null_spec_pod : pyval :=
  pod_named [("name", PStr "p1")] (PDict [("hostIP", PStr "10.0.0.5")]) PNone.

(** * Properties *)

Section Properties.

Context {lib : PyLib}.

#[local] Arguments perform_kubelet_query : simpl never.
#[local] Arguments retrieve_json_auth : simpl never.
#[local] Arguments get_node_hostname : simpl never.
#[local] Arguments locate_host : simpl never.
#[local] Arguments probe_kubelet : simpl never.
#[local] Arguments _locate_kubelet : simpl never.
#[local] Arguments _init_tls_settings : simpl never.
#[local] Arguments retrieve_pods_list : simpl never.
#[local] Arguments _fetch_host_data : simpl never.
#[local] Arguments node_hostname : simpl never.
#[local] Arguments json_answer : simpl never.

Lemma event_tags_length (event : dict) : length (event_tags event) <= 4.
Proof.
  unfold event_tags.
  repeat match goal with
         | |- context [match ?x with _ => _ end] => destruct x
         end; cbn; lia.
Qed.

Lemma py_fmt_s_plain (v : pyval) : not_tuple v = true -> py_fmt_s v = Ok (py_str v).
Proof. now destruct v. Qed.

(** What a returned list is made of: the tags of [event_tags], with the
    namespace and the host rendered by the [%] operator. *)
Lemma extract_event_tags_shape (event : dict) (tags : list string) :
  extract_event_tags event = Ok tags ->
  tags =
    match dict_lookup event "reason" with
    | Some (PStr r) => ["reason:" +:+ unicode_lower r]
    | _ => []
    end ++
    match nested_field event "metadata" "namespace" with
    | Some ns => match py_fmt_s ns with Ok s => ["namespace:" +:+ s] | Raise _ => [] end
    | None => []
    end ++
    match nested_field event "source" "host" with
    | Some h => match py_fmt_s h with Ok s => ["node_name:" +:+ s] | Raise _ => [] end
    | None => []
    end ++
    match nested_field event "involvedObject" "kind" with
    | Some (PStr k) => ["object_type:" +:+ unicode_lower k]
    | _ => []
    end.
Proof.
  unfold extract_event_tags, nested_field, dict_get_default, dict_has.
  destruct (dict_lookup event "reason") as [[]|]; cbn; try discriminate.
  all: destruct (dict_lookup event "metadata") as [[| | | s1 | l1 | l1 | d1]|]; cbn;
    try discriminate.
  all: try (destruct (str_contains "namespace" s1); cbn; try discriminate).
  all: try (destruct (existsb _ l1); cbn; try discriminate).
  all: try (unfold dict_has; destruct (dict_lookup d1 "namespace") as [ns|]; cbn;
            [destruct (py_fmt_s ns); cbn|]; try discriminate).
  all: destruct (dict_lookup event "source") as [[| | | s2 | l2 | l2 | d2]|]; cbn;
    try discriminate.
  all: try (destruct (str_contains "host" s2); cbn; try discriminate).
  all: try (destruct (existsb _ l2); cbn; try discriminate).
  all: try (unfold dict_has; destruct (dict_lookup d2 "host") as [h|]; cbn;
            [destruct (py_fmt_s h); cbn|]; try discriminate).
  all: destruct (dict_lookup event "involvedObject") as [[| | | s3 | l3 | l3 | d3]|]; cbn;
    try discriminate.
  all: try (destruct (str_contains "kind" s3); cbn; try discriminate).
  all: try (destruct (existsb _ l3); cbn; try discriminate).
  all: try (unfold dict_has, dict_get_default;
            destruct (dict_lookup d3 "kind") as [[]|]; cbn; try discriminate).
  all: congruence.
Qed.

Lemma extract_event_tags_bound (event : dict) (tags : list string) :
  extract_event_tags event = Ok tags -> length tags <= 4.
Proof.
  intros Hrun. rewrite (extract_event_tags_shape event tags Hrun). clear Hrun.
  repeat match goal with
         | |- context [match ?x with _ => _ end] => destruct x
         end; cbn; lia.
Qed.

Lemma extract_event_tags_sound (event : dict) (tags : list string) :
  extract_event_tags event = Ok tags -> plain_fields event = true ->
  tags = event_tags event.
Proof.
  intros Hrun. rewrite (extract_event_tags_shape event tags Hrun). clear Hrun.
  unfold plain_fields, event_tags.
  intros [Hns Hhost]%andb_prop.
  destruct (nested_field event "metadata" "namespace") as [ns|];
    [rewrite (py_fmt_s_plain ns Hns)|];
    (destruct (nested_field event "source" "host") as [h|];
     [rewrite (py_fmt_s_plain h Hhost)|]); reflexivity.
Qed.

Lemma extract_event_tags_total (event : dict) :
  event_typed event = true -> is_ok (extract_event_tags event) = true.
Proof.
  unfold event_typed, plain_fields, nested_field, field_is, extract_event_tags,
    dict_get_default, dict_has.
  destruct (dict_lookup event "reason") as [[]|]; cbn; try discriminate.
  all: destruct (dict_lookup event "metadata") as [[| | | | | | d1]|]; cbn;
    try discriminate.
  all: try (unfold dict_has; destruct (dict_lookup d1 "namespace") as [ns|]; cbn;
            [destruct (not_tuple ns) eqn:Hns;
             [rewrite (py_fmt_s_plain ns Hns); cbn|]|]).
  all: destruct (dict_lookup event "source") as [[| | | | | | d2]|]; cbn;
    try discriminate.
  all: try (unfold dict_has; destruct (dict_lookup d2 "host") as [h|]; cbn;
            [destruct (not_tuple h) eqn:Hh;
             [rewrite (py_fmt_s_plain h Hh); cbn|]|]).
  all: rewrite ?andb_false_r; try discriminate.
  all: destruct (dict_lookup event "involvedObject") as [[| | | | | | d3]|]; cbn;
    try discriminate.
  all: try (unfold dict_has, dict_get_default, field_is;
            destruct (dict_lookup d3 "kind") as [[]|]; cbn; try discriminate).
  all: reflexivity.
Qed.

(** C9. [extract_event_tags] returns the tags [event_tags] lists: the
    reason lowered by the interpreter's [lower], the namespace of the
    metadata, the host of the source as node name, the kind of the involved
    object lowered likewise, each one only when its field is there, in that
    order, so at most four. It returns them for every event whose fields
    have the types of the API; whenever it returns at all, it returns at
    most four tags, and these are the tags of [event_tags] as soon as the
    namespace and the host are JSON values. *)
Theorem extract_event_tags_spec (event : dict) :
  (event_typed event = true -> extract_event_tags event = Ok (event_tags event)) /\
  (forall tags, extract_event_tags event = Ok tags ->
     length tags <= 4 /\ (plain_fields event = true -> tags = event_tags event)) /\
  length (event_tags event) <= 4.
Proof.
  split; [|split].
  - intros Hty. pose proof (extract_event_tags_total event Hty) as Hok.
    destruct (extract_event_tags event) as [tags|] eqn:E; [|discriminate].
    f_equal. apply (extract_event_tags_sound event tags E).
    unfold event_typed in Hty. now apply andb_prop in Hty as [_ Hplain].
  - intros tags Hrun. split.
    + exact (extract_event_tags_bound event tags Hrun).
    + exact (extract_event_tags_sound event tags Hrun).
  - apply event_tags_length.
Qed.

Lemma dd_get_nonempty_opt (m : gmap string (list string)) (k : string) (l : list string) :
  m !! k = nonempty_opt l -> dd_get m k = l.
Proof. unfold dd_get. intros ->. now destruct l. Qed.

Lemma nonempty_opt_snoc (l : list string) (t : string) :
  nonempty_opt (l ++ [t]) = Some (l ++ [t]).
Proof. now destruct l. Qed.

Lemma add_labels_lookup (excluded_keys : list string) (key : string) (labels : dict) :
  forall (m : gmap string (list string)) (f : string -> list string),
    (forall k, m !! k = nonempty_opt (f k)) ->
    forall k, add_labels excluded_keys key labels m !! k =
      nonempty_opt (f k ++
        if String.eqb key k
        then map (fun kv => "kube_" +:+ kv.1 +:+ ":" +:+ py_str kv.2)
                 (filter (fun kv => kv.1 ∉ excluded_keys) labels)
        else []).
Proof.
  induction labels as [|[lk lv] rest IH]; intros m f Hm k; cbn [add_labels].
  - rewrite Hm. destruct (String.eqb key k); now rewrite app_nil_r.
  - rewrite filter_cons. cbn [fst]. case_bool_decide as Hex.
    + rewrite decide_False by tauto. now apply IH.
    + rewrite decide_True by done.
      rewrite (IH _ (fun k' => f k' ++ if String.eqb key k' then [kube_tag lk lv] else [])).
      * destruct (String.eqb key k); cbn [map fst snd]; [|now rewrite !app_nil_r].
        unfold kube_tag. now rewrite <- app_assoc.
      * intros k'. unfold dd_append.
        destruct (String.eqb_spec key k') as [->|Hne].
        -- rewrite lookup_insert_eq, (dd_get_nonempty_opt _ _ _ (Hm k')).
           now rewrite nonempty_opt_snoc.
        -- rewrite lookup_insert_ne by done. now rewrite app_nil_r.
Qed.

Lemma extract_pod_labels_lookup (excluded_keys : list string) (pod : pyval)
    (m m' : gmap string (list string)) (f : string -> list string) :
  (forall k, m !! k = nonempty_opt (f k)) ->
  extract_pod_labels excluded_keys m pod = Ok m' ->
  forall k, m' !! k = nonempty_opt (f k ++ tags_for excluded_keys k pod).
Proof.
  intros Hm. unfold extract_pod_labels, tags_for, pod_entry, py_get, py_get_default.
  destruct pod as [| | | | | |p]; cbn; try discriminate.
  destruct (dict_get_default p "metadata" (PDict [])) as [| | | | | |md]; cbn;
    try discriminate.
  unfold dict_get.
  set (name := dict_get_default md "name" PNone).
  set (namespace := dict_get_default md "namespace" PNone).
  destruct (dict_get_default md "labels" PNone) as [| | | | | |labels] eqn:El.
  all: destruct (truthy name) eqn:Hn; cbn; try rewrite !andb_false_r; cbn.
  all: destruct (truthy namespace) eqn:Hns; cbn; try rewrite !andb_false_r; cbn.
  all: try (intros [= <-] k; rewrite app_nil_r; apply Hm).
  all: try (destruct b; cbn).
  all: try (destruct (n =? 0)%Z; cbn).
  all: try (destruct (String.eqb s ""); cbn).
  all: try (destruct l; cbn).
  all: try (destruct labels as [|kv labels]; cbn).
  all: try discriminate.
  all: try (intros [= <-] k; rewrite app_nil_r; apply Hm).
  intros [= <-] k.
  exact (add_labels_lookup excluded_keys _ (kv :: labels) m f Hm k).
Qed.

Lemma extract_pods_lookup (excluded_keys : list string) (pod_items : list pyval) :
  forall (m labels : gmap string (list string)) (f : string -> list string),
    (forall k, m !! k = nonempty_opt (f k)) ->
    extract_pods excluded_keys pod_items m = Ok labels ->
    forall k, labels !! k =
      nonempty_opt (f k ++ concat (map (tags_for excluded_keys k) pod_items)).
Proof.
  induction pod_items as [|pod rest IH]; intros m labels f Hm; cbn.
  - intros [= <-] k. rewrite app_nil_r. apply Hm.
  - destruct (extract_pod_labels excluded_keys m pod) as [m'|] eqn:E; cbn; [|discriminate].
    intros Hrest k.
    rewrite (IH m' labels (fun k => f k ++ tags_for excluded_keys k pod)); trivial.
    + now rewrite app_assoc.
    + now apply extract_pod_labels_lookup with (m := m).
Qed.

Lemma extract_kube_labels_items (pods_list : pyval) (excluded_keys : option (list string))
    (labels : gmap string (list string)) :
  extract_kube_labels pods_list excluded_keys = Ok labels ->
  extract_pods (default [] excluded_keys) (pod_items_of pods_list) ∅ = Ok labels.
Proof.
  unfold extract_kube_labels, pod_items_of, py_get, py_get_default, py_or, dict_get.
  destruct pods_list as [| | | | | |d]; cbn; try discriminate.
  destruct (dict_get_default d "items" PNone) as [|[]|n|s|l|l|d']; cbn; try done.
  - destruct (n =? 0)%Z; cbn; [done|discriminate].
  - destruct s; cbn; [done|discriminate].
  - now destruct l.
  - now destruct l.
  - destruct d'; cbn; [done|discriminate].
Qed.

Lemma extract_pod_labels_total (excluded_keys : list string) (pod : pyval)
    (m : gmap string (list string)) :
  pod_typed pod = true -> is_ok (extract_pod_labels excluded_keys m pod) = true.
Proof.
  unfold pod_typed, field_is, extract_pod_labels, py_get, py_get_default, dict_get_default.
  destruct pod as [| | | | | |p]; try discriminate.
  destruct (dict_lookup p "metadata") as [[| | | | | |md]|]; cbn; try discriminate;
    [|reflexivity].
  unfold field_is, dict_get_default.
  destruct (truthy match dict_lookup md "name" with Some v => v | None => PNone end);
    cbn; [|reflexivity].
  destruct (dict_lookup md "labels") as [labels|]; cbn; [|reflexivity].
  destruct (truthy labels) eqn:Hl; cbn; [|reflexivity].
  destruct (truthy match dict_lookup md "namespace" with Some v => v | None => PNone end);
    cbn; [|reflexivity].
  destruct labels; cbn; try discriminate; reflexivity.
Qed.

Lemma extract_pods_total (excluded_keys : list string) (pod_items : list pyval) :
  forallb pod_typed pod_items = true ->
  forall m, is_ok (extract_pods excluded_keys pod_items m) = true.
Proof.
  induction pod_items as [|pod rest IH]; cbn; [reflexivity|].
  intros [Hpod Hrest]%andb_prop m.
  pose proof (extract_pod_labels_total excluded_keys pod m Hpod) as Hok.
  destruct (extract_pod_labels excluded_keys m pod); [|discriminate]. cbn. now apply IH.
Qed.

(** C8. The index [extract_kube_labels] returns holds, under each key, the
    tags of the pod items with that key, in the order of the items and of
    each item's labels: an item with a name, a namespace and a non-empty
    label map has the key [namespace/name] and one [kube_key:value] tag per
    label that is not excluded; any other item contributes nothing. The
    call returns for every pod list of the kubelet's shape, and on the pod
    [p1] of namespace [ns] with labels [a], [b] and [b] excluded it returns
    the single entry of [ns/p1] with the tag [kube_a:1]. *)
Theorem extract_kube_labels_spec (pods_list : pyval) (excluded_keys : option (list string)) :
  (forall labels, extract_kube_labels pods_list excluded_keys = Ok labels ->
     forall key,
       labels !! key =
       nonempty_opt (concat (map (tags_for (default [] excluded_keys) key)
                                 (pod_items_of pods_list)))) /\
  (pods_list_typed pods_list = true ->
     is_ok (extract_kube_labels pods_list excluded_keys) = true) /\
  extract_kube_labels p1_pods_list (Some ["b"]) = Ok {[ "ns/p1" := ["kube_a:1"] ]}.
Proof.
  split; [|split].
  - intros labels Hrun%extract_kube_labels_items key.
    now apply (extract_pods_lookup _ _ ∅ labels (fun _ => [])).
  - unfold pods_list_typed, extract_kube_labels, py_get, py_get_default, py_or, dict_get.
    destruct pods_list as [| | | | | |d]; try discriminate.
    destruct (dict_get_default d "items" PNone) as [| | | |l| |]; try discriminate;
      cbn; [reflexivity|].
    intros Hty. destruct l; [reflexivity|]. now apply extract_pods_total.
  - reflexivity.
Qed.

(** ** Running the monad *)

Lemma bind_run {A B} (m : M A) (f : A -> M B) (w : World) (st : State) :
  (m ≫= f) w st =
    match m w st with
    | (Ok a, st') => f a w st'
    | (Raise e, st') => (Raise e, st')
    end.
Proof. reflexivity. Qed.

Lemma getattr_run (name : string) (w : World) (st : State) (v : pyval) :
  self st !! name = Some v -> getattr name w st = (Ok v, st).
Proof. unfold getattr. now intros ->. Qed.

Ltac mrun :=
  unfold mbind, M_bind, mret, M_ret, lift, ask, getattr, setattr, raise, try_except,
    do_requests_get in *; cbn -[startswith lower urlencode] in *.

Lemma perform_kubelet_query_run (url : string) (verbose : pyval) (timeout : Z)
    (w : World) (st : State) (tls : dict) :
  self st !! "tls_settings" = Some (PDict tls) ->
  perform_kubelet_query url verbose timeout w st =
    (requests_get w (kubelet_request w tls url verbose timeout),
     logged st (kubelet_request w tls url verbose timeout)).
Proof.
  intros Htls. unfold perform_kubelet_query, kubelet_request, logged, get_auth_token, token_of.
  unfold dict_get. mrun. rewrite Htls. cbn -[startswith lower].
  destruct (negb _ && startswith _ _); reflexivity.
Qed.

(** ** Request signing *)

Lemma startswith_url_scheme (url : string) :
  startswith (url_scheme url) (lower url) = true.
Proof.
  induction url as [|c rest IH]; cbn; [reflexivity|].
  destruct (Ascii.eqb c ":"); cbn; [reflexivity|].
  now rewrite Ascii.eqb_refl.
Qed.

Lemma startswith_lower_scheme (p : string) :
  no_colon p = true ->
  forall url, startswith p (lower url) = true -> startswith p (url_scheme url) = true.
Proof.
  induction p as [|a p IH]; cbn; [reflexivity|].
  intros [Ha Hp]%andb_prop [|c rest]; cbn; [discriminate|].
  destruct (Ascii.eqb a (ascii_lower c)) eqn:Hac; [|discriminate].
  intros Hrest. destruct (Ascii.eqb c ":") eqn:Hc.
  - apply Ascii.eqb_eq in Hc. subst c. change (ascii_lower ":") with ":"%char in Hac.
    now rewrite Hac in Ha.
  - cbn. rewrite Hac. now apply IH.
Qed.

(** C3. The request of [perform_kubelet_query] carries the client
    certificate and no header when a certificate is configured; with no
    certificate it carries the [Authorization: Bearer] header with the token
    read from the token file in the world of this call when the scheme of
    the URL is [https], and no header when the scheme is [http]. *)
Theorem perform_kubelet_query_auth (url : string) (verbose : pyval) (timeout : Z)
    (w : World) (st : State) (tls : dict) :
  self st !! "tls_settings" = Some (PDict tls) ->
  exists r,
    perform_kubelet_query url verbose timeout w st = (requests_get w r, logged st r) /\
    req_url r = url /\
    req_cert r = dict_get tls "kubelet_client_cert" /\
    (truthy (dict_get tls "kubelet_client_cert") = true -> req_headers r = None) /\
    (truthy (dict_get tls "kubelet_client_cert") = false ->
     url_scheme url = "https" ->
     req_headers r =
       Some [("Authorization",
              "Bearer " +:+ match auth_token_file w with
                            | Some token => token
                            | None => "None"
                            end)]) /\
    (truthy (dict_get tls "kubelet_client_cert") = false ->
     url_scheme url = "http" ->
     req_headers r = None).
Proof.
  intros Htls. exists (kubelet_request w tls url verbose timeout).
  split; [now apply perform_kubelet_query_run|].
  unfold kubelet_request; cbn -[startswith lower].
  repeat split.
  - now intros ->.
  - intros -> Hs. pose proof (startswith_url_scheme url) as Hp. rewrite Hs in Hp.
    rewrite Hp. unfold bearer, token_of. now destruct (auth_token_file w).
  - intros -> Hs. destruct (startswith "https" (lower url)) eqn:Hp; [|reflexivity].
    apply startswith_lower_scheme in Hp; [|reflexivity]. now rewrite Hs in Hp.
Qed.

Lemma retrieve_json_auth_run (url : string) (auth_token : pyval) (timeout : Z)
    (verify : pyval) (w : World) (st : State) :
  let r := json_auth_request w url auth_token timeout verify in
  retrieve_json_auth url auth_token timeout verify w st =
    (resp ← requests_get w r; _ ← raise_for_status resp; response_json resp, logged st r).
Proof.
  unfold retrieve_json_auth, json_auth_request, logged, bearer. mrun.
  replace (match verify with
           | PNone => if path_exists w CA_CRT_PATH then PStr CA_CRT_PATH else PBool false
           | _ => verify
           end)
    with (if is_none verify
          then (if path_exists w CA_CRT_PATH then PStr CA_CRT_PATH else PBool false)
          else verify) by now destruct verify.
  destruct (requests_get w _) as [resp|e]; cbn; [|reflexivity].
  now destruct (raise_for_status resp).
Qed.

(** C4, amended. [retrieve_json_auth] sends one request, always with the
    bearer token it was given; with no [verify] argument it verifies against
    the CA certificate file when that file exists and does not verify
    otherwise. It raises an HTTPError for every status from 400 to 599; for
    any other status, 200 among them, it returns the parsed JSON body. *)
Theorem retrieve_json_auth_spec (url : string) (auth_token : pyval) (timeout : Z)
    (verify : pyval) (w : World) (st : State) :
  exists r,
    snd (retrieve_json_auth url auth_token timeout verify w st) = logged st r /\
    req_url r = url /\
    req_headers r = Some [("Authorization", "Bearer " +:+ py_str auth_token)] /\
    (verify = PNone ->
     req_verify r = if path_exists w CA_CRT_PATH then PStr CA_CRT_PATH else PBool false) /\
    (verify <> PNone -> req_verify r = verify) /\
    forall resp, requests_get w r = Ok resp ->
      ((400 <= status_code resp < 600)%Z ->
       fst (retrieve_json_auth url auth_token timeout verify w st) =
         Raise (HTTPError (status_code resp))) /\
      (~ (400 <= status_code resp < 600)%Z ->
       forall body, json_body resp = Some body ->
       fst (retrieve_json_auth url auth_token timeout verify w st) = Ok body).
Proof.
  exists (json_auth_request w url auth_token timeout verify).
  rewrite retrieve_json_auth_run. cbn.
  do 3 (split; [reflexivity|]).
  split; [now intros ->|]. split; [intros Hv; now destruct verify|].
  intros resp H. split.
  - intros Hst. rewrite H. cbn. unfold raise_for_status.
    replace ((400 <=? status_code resp)%Z && (status_code resp <? 600)%Z) with true; [done|].
    symmetry. apply andb_true_intro. split; [apply Z.leb_le|apply Z.ltb_lt]; lia.
  - intros Hst body Hbody. rewrite H. cbn. unfold raise_for_status, response_json.
    replace ((400 <=? status_code resp)%Z && (status_code resp <? 600)%Z) with false.
    + cbn. now rewrite Hbody.
    + symmetry. apply andb_false_iff.
      destruct (Z.leb_spec 400 (status_code resp)); [right|now left].
      apply Z.ltb_ge. lia.
Qed.

(** ** TLS settings *)

Lemma _init_tls_settings_sound (instance : dict) (w : World) (st st' : State) (tls : pyval) :
  path_exists w "" = false ->
  _init_tls_settings instance w st = (Ok tls, st') ->
  st' = st /\
  exists d, tls = PDict d /\
    dict_lookup d "kubelet_client_cert" =
      (fun ck => PTuple [PStr ck.1; PStr ck.2]) <$> client_cert_of w instance /\
    dict_lookup d "verify" = Some (verify_of instance).
Proof.
  intros Hempty.
  unfold _init_tls_settings, client_cert_of, verify_of, dict_get, dict_get_default.
  mrun.
  destruct (dict_lookup instance "kubelet_cert") as [ca|]; [destruct (truthy ca) eqn:Hca|].
  all: destruct (dict_lookup instance "kubelet_client_crt") as [[|[]|n1|c|[]|[]|[]]|];
    destruct (dict_lookup instance "kubelet_client_key") as [[|[]|n2|k|[]|[]|[]]|];
    cbn; try discriminate.
  all: repeat match goal with
         | |- context [(?n =? 0)%Z] => destruct (n =? 0)%Z; cbn; try discriminate
         | |- context [String.eqb ?x ""] =>
             destruct (String.eqb_spec x ""); subst; cbn; try rewrite Hempty; cbn;
             try rewrite andb_false_r; try discriminate
         | |- context [path_exists _ ?x] =>
             destruct (path_exists w x); cbn; try discriminate
         end.
  all: intros [= <- <-]; split; [reflexivity|]; eexists; split; [reflexivity|];
    cbn; rewrite ?Hca; split; reflexivity.
Qed.

Lemma _init_tls_settings_total (instance : dict) (w : World) (st : State) :
  path_typed instance "kubelet_client_crt" = true ->
  path_typed instance "kubelet_client_key" = true ->
  is_ok (fst (_init_tls_settings instance w st)) = true.
Proof.
  unfold path_typed, field_is, _init_tls_settings, dict_get, dict_get_default.
  mrun.
  destruct (dict_lookup instance "kubelet_client_crt") as [[| | |c| | |]|];
    destruct (dict_lookup instance "kubelet_client_key") as [[| | |k| | |]|];
    cbn; try discriminate; intros _ _.
  all: repeat match goal with
         | |- context [String.eqb ?x ""] => destruct (String.eqb x ""); cbn
         | |- context [path_exists _ ?x] => destruct (path_exists w x); cbn
         end; reflexivity.
Qed.

(** C6. [_init_tls_settings] records the client certificate exactly when
    the configuration holds a cert path and a key path and both files exist,
    and the verification setting is the CA certificate path when one is
    configured, else the verify flag, true by default; it returns for every
    configuration whose two paths are strings or null, changes nothing and
    sends nothing; a configuration without the cert or without the key has
    no client certificate. *)
Theorem _init_tls_settings_spec (instance : dict) (w : World) (st : State) :
  path_exists w "" = false ->
  (forall tls st',
     _init_tls_settings instance w st = (Ok tls, st') ->
     st' = st /\
     exists d, tls = PDict d /\
       dict_lookup d "kubelet_client_cert" =
         (fun ck => PTuple [PStr ck.1; PStr ck.2]) <$> client_cert_of w instance /\
       dict_lookup d "verify" = Some (verify_of instance)) /\
  (path_typed instance "kubelet_client_crt" = true ->
   path_typed instance "kubelet_client_key" = true ->
   is_ok (fst (_init_tls_settings instance w st)) = true) /\
  (dict_lookup instance "kubelet_client_crt" = None \/
   dict_lookup instance "kubelet_client_key" = None ->
   exists d, _init_tls_settings instance w st = (Ok (PDict d), st) /\
     dict_lookup d "kubelet_client_cert" = None).
Proof.
  intros Hempty. split; [|split].
  - intros tls st'. now apply _init_tls_settings_sound.
  - apply _init_tls_settings_total.
  - intros Hlack.
    assert (Hnone : client_cert_of w instance = None).
    { unfold client_cert_of. destruct Hlack as [-> | ->]; [reflexivity|].
      now destruct (dict_lookup instance "kubelet_client_crt") as [[]|]. }
    assert (Hok : is_ok (fst (_init_tls_settings instance w st)) = true).
    { unfold _init_tls_settings, dict_get, dict_get_default. mrun.
      destruct Hlack as [-> | ->]; cbn; [reflexivity|].
      now rewrite andb_false_r. }
    destruct (_init_tls_settings instance w st) as [[tls|e] st'] eqn:Hrun; [|discriminate].
    destruct (_init_tls_settings_sound _ _ _ _ _ Hempty Hrun) as (-> & d & -> & Hcert & _).
    exists d. split; [reflexivity|]. now rewrite Hcert, Hnone.
Qed.


(** ** Host selection *)

Lemma get_node_hostname_run (host : string) (w : World) (st : State) (api_url : string) :
  self st !! "kubernetes_api_url" = Some (PStr api_url) ->
  get_node_hostname host w st =
    (node ← json_answer w (node_request w api_url host); node_hostname node,
     logged st (node_request w api_url host)).
Proof.
  intros Hurl. unfold get_node_hostname.
  rewrite bind_run, (getattr_run _ _ _ _ Hurl).
  rewrite bind_run. unfold lift at 1. cbn [as_str].
  rewrite bind_run. unfold get_auth_token at 1. rewrite bind_run. unfold ask at 1.
  unfold mret at 1, M_ret at 1.
  rewrite bind_run, retrieve_json_auth_run.
  assert (Hr : node_request w api_url host =
               json_auth_request w
                 (api_url +:+ "/nodes?" +:+
                  urlencode [("labelSelector", "kubernetes.io/hostname=" +:+ host)])
                 match auth_token_file w with
                 | Some token => PStr token
                 | None => PNone
                 end 10 PNone) by reflexivity.
  rewrite <- Hr. unfold json_answer, lift.
  now destruct (requests_get w _ ≫= _).
Qed.


(** ** The probes *)

Lemma probe_kubelet_run (instance : dict) (host : pyval) (w : World) (st : State)
    (tls : dict) :
  self st !! "tls_settings" = Some (PDict tls) ->
  probe_kubelet instance host w st =
    match requests_get w (http_probe w tls instance host) with
    | Ok _ => (Ok (no_auth_url instance host), logged st (http_probe w tls instance host))
    | Raise _ =>
        let st1 := logged st (http_probe w tls instance host) in
        match requests_get w (https_probe w tls instance host) with
        | Ok _ => (Ok (https_url instance host),
                   logged st1 (https_probe w tls instance host))
        | Raise e => (Raise e, logged st1 (https_probe w tls instance host))
        end
    end.
Proof.
  intros Htls. unfold probe_kubelet, http_probe, https_probe, try_except.
  rewrite !bind_run, (perform_kubelet_query_run _ _ _ _ _ _ Htls).
  destruct (requests_get w _) as [resp|e]; [reflexivity|].
  cbv beta iota zeta. unfold mret at 1, M_ret at 1.
  rewrite bind_run, (perform_kubelet_query_run _ _ _ _ _ tls) by exact Htls.
  now destruct (requests_get w _).
Qed.

Lemma locate_host_self (instance : dict) (w : World) (st : State) :
  self (locate_host instance w st).2 = self st.
Proof.
  unfold locate_host. rewrite bind_run. unfold ask at 1. cbv beta iota.
  destruct (negb _); [|reflexivity].
  rewrite bind_run. unfold getattr at 1.
  destruct (self st !! "tls_settings") as [tls_settings|]; [|reflexivity].
  rewrite bind_run. unfold lift at 1.
  destruct (py_getitem tls_settings "verify") as [verify|]; [|reflexivity].
  destruct (truthy verify); [|reflexivity].
  unfold try_except. rewrite bind_run.
  unfold get_node_hostname. rewrite bind_run. unfold getattr at 1.
  destruct (self st !! "kubernetes_api_url") as [api_url|]; [|reflexivity].
  rewrite bind_run. unfold lift at 1.
  destruct (as_str api_url); [|reflexivity].
  rewrite bind_run. unfold get_auth_token at 1. rewrite bind_run. unfold ask at 1.
  unfold mret at 1, M_ret at 1. cbv beta iota.
  rewrite bind_run, retrieve_json_auth_run. cbv beta iota zeta.
  destruct (mbind _ _) as [node|e]; [|reflexivity].
  unfold lift. now destruct (node_hostname node).
Qed.

(** C1, amended. A locator run that has selected [host] sends the HTTP
    probe first. When that request returns a response, of any status, the
    run returns the [http] base URL and sends nothing else. When it raises
    (connection error, timeout), the run sends the HTTPS probe with the
    verify setting and the client certificate of the TLS settings, and
    returns the [https] base URL when that request returns a response, and
    raises what it raises otherwise. *)
Theorem _locate_kubelet_probes (instance : dict) (w : World) (st st1 : State)
    (tls : dict) (host : pyval) :
  self st !! "tls_settings" = Some (PDict tls) ->
  locate_host instance w st = (Ok host, st1) ->
  let r1 := http_probe w tls instance host in
  let r2 := https_probe w tls instance host in
  no_auth_url instance host =
    "http://" +:+ py_str host +:+ ":" +:+
    py_str (dict_get_default instance "kubelet_port" (PInt 10255)) /\
  https_url instance host =
    "https://" +:+ py_str host +:+ ":" +:+
    py_str (dict_get_default instance "kubelet_port" (PInt 10250)) /\
  req_url r1 = urljoin (no_auth_url instance host) "/healthz" /\
  req_url r2 = urljoin (https_url instance host) "/healthz" /\
  req_verify r2 = dict_get_default tls "verify" (PBool true) /\
  req_cert r2 = dict_get tls "kubelet_client_cert" /\
  url_scheme (no_auth_url instance host) = "http" /\
  url_scheme (https_url instance host) = "https" /\
  (forall resp, requests_get w r1 = Ok resp ->
     _locate_kubelet instance w st = (Ok (no_auth_url instance host), logged st1 r1)) /\
  (forall e, requests_get w r1 = Raise e ->
     (forall resp, requests_get w r2 = Ok resp ->
        _locate_kubelet instance w st =
          (Ok (https_url instance host), logged (logged st1 r1) r2)) /\
     (forall e2, requests_get w r2 = Raise e2 ->
        _locate_kubelet instance w st = (Raise e2, logged (logged st1 r1) r2))).
Proof.
  intros Htls Hhost r1 r2.
  assert (Htls1 : self st1 !! "tls_settings" = Some (PDict tls)).
  { pose proof (locate_host_self instance w st) as Hself.
    rewrite Hhost in Hself. cbn in Hself. now rewrite Hself. }
  assert (Hrun : _locate_kubelet instance w st = probe_kubelet instance host w st1).
  { unfold _locate_kubelet. now rewrite bind_run, Hhost. }
  rewrite Hrun, (probe_kubelet_run _ _ _ _ _ Htls1). fold r1 r2.
  do 8 (split; [reflexivity|]). split.
  - now intros resp ->.
  - intros e ->. split.
    + now intros resp ->.
    + now intros e2 ->.
Qed.

(** C10. Both probes take their port from the one key [kubelet_port]: when
    the configuration has the key, the HTTP probe and the HTTPS probe go to
    that same port; 10255 and 10250 are used only when the key is absent.
    When the HTTP probe raises, the two probes are the requests the run
    sends, in this order. *)
Theorem kubelet_port_shared (instance : dict) (host : pyval) (w : World) (st : State)
    (tls : dict) :
  self st !! "tls_settings" = Some (PDict tls) ->
  let r1 := http_probe w tls instance host in
  let r2 := https_probe w tls instance host in
  (forall e, requests_get w r1 = Raise e ->
     log (probe_kubelet instance host w st).2 = log st ++ [r1; r2]) /\
  (forall port, dict_lookup instance "kubelet_port" = Some port ->
     req_url r1 = urljoin ("http://" +:+ py_str host +:+ ":" +:+ py_str port)
                    KUBELET_HEALTH_PATH /\
     req_url r2 = urljoin ("https://" +:+ py_str host +:+ ":" +:+ py_str port)
                    KUBELET_HEALTH_PATH) /\
  (dict_lookup instance "kubelet_port" = None ->
     req_url r1 = urljoin ("http://" +:+ py_str host +:+ ":10255") KUBELET_HEALTH_PATH /\
     req_url r2 = urljoin ("https://" +:+ py_str host +:+ ":10250") KUBELET_HEALTH_PATH).
Proof.
  intros Htls r1 r2. split; [|split].
  - intros e He. rewrite (probe_kubelet_run _ _ _ _ _ Htls). fold r1 r2. rewrite He.
    cbv zeta. destruct (requests_get w r2); cbn; now rewrite <- app_assoc.
  - intros port Hport. subst r1 r2.
    unfold http_probe, https_probe, kubelet_request, no_auth_url, https_url, dict_get_default.
    cbn [req_url]. now rewrite Hport.
  - intros Hport. subst r1 r2.
    unfold http_probe, https_probe, kubelet_request, no_auth_url, https_url, dict_get_default.
    cbn [req_url]. now rewrite Hport.
Qed.

(** ** Construction *)

Lemma _init_tls_settings_state (instance : dict) (w : World) (st : State) :
  (_init_tls_settings instance w st).2 = st.
Proof.
  unfold _init_tls_settings. mrun.
  now destruct (if truthy _ && truthy _ then _ else _) as [[]|].
Qed.

Lemma perform_kubelet_query_ok (url : string) (verbose : pyval) (timeout : Z)
    (w : World) (st st' : State) (resp : Response) :
  perform_kubelet_query url verbose timeout w st = (Ok resp, st') ->
  exists r, st' = logged st r /\ is_kubelet_query r = true /\ requests_get w r = Ok resp.
Proof.
  unfold perform_kubelet_query. rewrite bind_run. unfold getattr at 1.
  destruct (self st !! "tls_settings") as [tls|]; [|discriminate].
  rewrite bind_run. unfold lift at 1.
  destruct (py_get tls "kubelet_client_cert") as [cert|]; [|discriminate].
  rewrite bind_run. unfold lift at 1.
  destruct (py_get_default tls "verify" DEFAULT_TLS_VERIFY) as [verify|]; [|discriminate].
  rewrite bind_run.
  destruct (negb (truthy cert) && startswith "https" (lower url)).
  - rewrite bind_run. unfold get_auth_token. rewrite bind_run. unfold ask, mret, M_ret.
    unfold do_requests_get. intros [= Hresp <-]. eexists. split; [reflexivity|]. now split.
  - unfold mret, M_ret, do_requests_get. intros [= Hresp <-].
    eexists. split; [reflexivity|]. now split.
Qed.

Lemma perform_kubelet_query_self (url : string) (verbose : pyval) (timeout : Z)
    (w : World) (st : State) :
  self (perform_kubelet_query url verbose timeout w st).2 = self st.
Proof.
  unfold perform_kubelet_query. rewrite bind_run. unfold getattr at 1.
  destruct (self st !! "tls_settings") as [tls|]; [|reflexivity].
  rewrite bind_run. unfold lift at 1.
  destruct (py_get tls "kubelet_client_cert") as [cert|]; [|reflexivity].
  rewrite bind_run. unfold lift at 1.
  destruct (py_get_default tls "verify" DEFAULT_TLS_VERIFY) as [verify|]; [|reflexivity].
  rewrite bind_run.
  destruct (negb (truthy cert) && startswith "https" (lower url)); reflexivity.
Qed.

Lemma probe_kubelet_self (instance : dict) (host : pyval) (w : World) (st : State) :
  self (probe_kubelet instance host w st).2 = self st.
Proof.
  unfold probe_kubelet, try_except. rewrite !bind_run.
  pose proof (perform_kubelet_query_self
                (urljoin (no_auth_url instance host) KUBELET_HEALTH_PATH) (PBool true) 10 w st)
    as H1.
  destruct (perform_kubelet_query _ _ _ w st) as [[resp|e] st1]; cbn in H1; [exact H1|].
  cbv beta iota. unfold mret at 1, M_ret at 1. rewrite bind_run.
  pose proof (perform_kubelet_query_self
                (urljoin (https_url instance host) KUBELET_HEALTH_PATH) (PBool true) 10 w st1)
    as H2.
  destruct (perform_kubelet_query _ _ _ w st1) as [[resp|e2] st2]; cbn in H2 |- *; congruence.
Qed.

Lemma probe_kubelet_ok (instance : dict) (host : pyval) (w : World) (st st' : State)
    (url : string) :
  probe_kubelet instance host w st = (Ok url, st') ->
  exists r, r ∈ log st' /\ is_kubelet_query r = true /\ is_ok (requests_get w r) = true.
Proof.
  unfold probe_kubelet, try_except. rewrite !bind_run.
  destruct (perform_kubelet_query _ _ _ w st) as [[resp|e] st1] eqn:H1.
  - cbv beta iota. unfold mret, M_ret. intros [= _ <-].
    destruct (perform_kubelet_query_ok _ _ _ _ _ _ _ H1) as (r & -> & Hq & Hr).
    exists r. split; [cbn; set_solver|]. split; [exact Hq|now rewrite Hr].
  - cbv beta iota. unfold mret at 1, M_ret at 1. rewrite bind_run.
    destruct (perform_kubelet_query _ _ _ w st1) as [[resp|e2] st2] eqn:H2; [|discriminate].
    unfold mret, M_ret. intros [= _ <-].
    destruct (perform_kubelet_query_ok _ _ _ _ _ _ _ H2) as (r & -> & Hq & Hr).
    exists r. split; [cbn; set_solver|]. split; [exact Hq|now rewrite Hr].
Qed.

Lemma silent_bind {A B} (m : M A) (f : A -> M B) :
  silent m -> (forall a, silent (f a)) -> silent (m ≫= f).
Proof.
  intros Hm Hf w st. rewrite bind_run. specialize (Hm w st).
  destruct (m w st) as [[a|e] st1]; cbn in Hm; [|exact Hm].
  now rewrite Hf.
Qed.

Lemma silent_setattr (name : string) (v : pyval) : silent (setattr name v).
Proof. now intros w st. Qed.

Lemma silent_getattr (name : string) : silent (getattr name).
Proof. now intros w st. Qed.

Lemma silent_lift {A} (r : result A) : silent (lift r).
Proof. now intros w st. Qed.

Lemma silent_mret {A} (a : A) : silent (mret a).
Proof. now intros w st. Qed.

Lemma silent_raise {A} (e : exn) : silent (raise (A := A) e).
Proof. now intros w st. Qed.

Create HintDb silent.
#[local] Hint Resolve silent_setattr silent_getattr silent_lift silent_mret silent_raise
  : silent.

Ltac silent_tac :=
  repeat first
    [ apply silent_bind; [|intros ?]
    | match goal with |- silent (if ?b then _ else _) => destruct b end
    | solve [auto with silent] ].

Lemma _locate_kubelet_self (instance : dict) (w : World) (st : State) :
  self (_locate_kubelet instance w st).2 = self st.
Proof.
  unfold _locate_kubelet. rewrite bind_run.
  pose proof (locate_host_self instance w st) as Hhost.
  destruct (locate_host instance w st) as [[host|e] st1]; cbn in Hhost; [|exact Hhost].
  now rewrite probe_kubelet_self.
Qed.

Lemma _locate_kubelet_ok (instance : dict) (w : World) (st st' : State) (url : string) :
  _locate_kubelet instance w st = (Ok url, st') ->
  exists r, r ∈ log st' /\ is_kubelet_query r = true /\ is_ok (requests_get w r) = true.
Proof.
  unfold _locate_kubelet. rewrite bind_run.
  destruct (locate_host instance w st) as [[host|e] st1]; [|discriminate].
  apply probe_kubelet_ok.
Qed.

(** C2, amended. When every probe the constructor sent to the kubelet
    raised (connection error, timeout), that is, when the HTTP probe and
    the HTTPS probe both raised, [__init__] raises, and the object it was
    building has no [kubelet_api_url] and none of the attributes derived
    from it. A probe that is answered, with whatever status, does not count
    as failed. *)
Theorem __init___discovery_failure (instance : option dict) (w : World)
    (res : result unit) (st : State) :
  __init__ instance w fresh = (res, st) ->
  (forall r, r ∈ log st -> is_kubelet_query r = true -> is_ok (requests_get w r) = false) ->
  (exists e, res = Raise e) /\
  self st !! "kubelet_api_url" = None /\
  self st !! "kubelet_host" = None /\
  self st !! "pods_list_url" = None /\
  self st !! "kube_health_url" = None /\
  self st !! "cadvisor_url" = None /\
  self st !! "metrics_url" = None /\
  self st !! "machine_info_url" = None.
Proof.
  unfold __init__. rewrite bind_run. unfold ask at 1. cbv beta iota zeta.
  set (inst := match instance with Some i => i | None => default [] (yaml_instance w) end).
  do 5 (rewrite bind_run; unfold setattr at 1; cbv beta iota).
  cbn [self log fresh].
  set (st5 := {| self := _; log := [] |}).
  rewrite bind_run.
  pose proof (_init_tls_settings_state inst w st5) as Htls_st.
  destruct (_init_tls_settings inst w st5) as [[tls|e] st5'] eqn:Htls; cbn in Htls_st; subst st5'.
  2: { intros [= <- <-] _. split; [eauto|]. subst st5. cbn. now rewrite !lookup_insert_ne. }
  rewrite bind_run; unfold setattr at 1; cbv beta iota.
  set (st6 := {| self := _; log := _ |}).
  rewrite bind_run. unfold try_except at 1. rewrite bind_run.
  pose proof (_locate_kubelet_self inst w st6) as Hself.
  destruct (_locate_kubelet inst w st6) as [[url|e] st7] eqn:Hloc; cbn in Hself.
  - apply _locate_kubelet_ok in Hloc as (r & Hin & Hq & Hok).
    match goal with
    | |- (let (r, st') := let (r0, st'0) := ?m w st7 in _ in match r with
                                                              | Ok _ => ?tail w st'
                                                              | Raise _ => _
                                                              end) = _ -> _ =>
        assert (Hm : silent m) by silent_tac;
        assert (Ht : silent tail) by silent_tac;
        specialize (Hm w st7); destruct (m w st7) as [[[]|e] st8]; cbn in Hm
    end.
    + intros Hrun Hfail. exfalso.
      specialize (Ht w st8). rewrite Hrun in Ht. cbn in Ht.
      rewrite <- Hm, <- Ht in Hin. specialize (Hfail r Hin Hq). congruence.
    + intros [= <- <-] Hfail. exfalso.
      rewrite <- Hm in Hin. specialize (Hfail r Hin Hq). congruence.
  - unfold raise. intros [= <- <-] _. split; [eauto|].
    rewrite Hself. subst st6 st5. cbn. now rewrite !lookup_insert_ne.
Qed.

(** ** Node identity *)

Lemma retrieve_pods_list_run (w : World) (st : State) (tls : dict) (url : string) :
  self st !! "tls_settings" = Some (PDict tls) ->
  self st !! "pods_list_url" = Some (PStr url) ->
  retrieve_pods_list w st =
    (resp ← requests_get w (pods_request w tls url); response_json resp,
     logged st (pods_request w tls url)).
Proof.
  intros Htls Hurl. unfold retrieve_pods_list.
  rewrite bind_run, (getattr_run _ _ _ _ Hurl). rewrite bind_run. unfold lift at 1.
  cbn [as_str]. rewrite bind_run, (perform_kubelet_query_run _ _ _ _ _ _ Htls).
  fold (pods_request w tls url). unfold lift.
  now destruct (requests_get w _).
Qed.

Lemma _fetch_host_data_run (w : World) (st : State) (tls : dict) (url : string) :
  self st !! "tls_settings" = Some (PDict tls) ->
  self st !! "pods_list_url" = Some (PStr url) ->
  _fetch_host_data w st =
    match pod_items_answer w (pods_request w tls url) with
    | Ok pod_items =>
        (pod_items ← lift (py_iter pod_items); scan_pods pod_items)
          w (logged st (pods_request w tls url))
    | Raise _ => (Ok (), logged st (pods_request w tls url))
    end.
Proof.
  intros Htls Hurl. unfold _fetch_host_data, pod_items_answer, try_except.
  rewrite !bind_run, (retrieve_pods_list_run _ _ _ _ Htls Hurl).
  destruct (requests_get w _) as [resp|e]; cbn; [|reflexivity].
  destruct (response_json resp) as [pods|e]; cbn; [|reflexivity].
  rewrite bind_run. unfold lift at 1.
  now destruct (py_get pods "items").
Qed.

Lemma silent_scan_pods (pod_items : list pyval) : silent (scan_pods pod_items).
Proof.
  induction pod_items as [|pod rest IH]; cbn [scan_pods]; silent_tac.
Qed.

Lemma scan_pods_passed_over (host_name : pyval) (before rest : list pyval)
    (w : World) (st : State) :
  self st !! "host_name" = Some host_name ->
  forallb (passed_over host_name) before = true ->
  scan_pods (before ++ rest) w st = scan_pods rest w st.
Proof.
  intros Hhn. induction before as [|pod before IH]; [reflexivity|].
  cbn [forallb app]. intros [Hpod Hbefore]%andb_prop.
  rewrite <- IH by exact Hbefore. cbn [scan_pods].
  unfold passed_over in Hpod. destruct pod as [| | | | | |p]; try discriminate.
  rewrite bind_run. unfold lift at 1. cbn [py_get_default].
  destruct (dict_get_default p "metadata" (PDict [])) as [| | | | | |md]; try discriminate.
  rewrite bind_run. unfold lift at 1. cbn [py_get py_get_default].
  rewrite bind_run, (getattr_run _ _ _ _ Hhn).
  fold (dict_get md "name").
  now destruct (eq_host_name (dict_get md "name") host_name).
Qed.

Lemma scan_pods_match (host_name : pyval) (pod md status spec : dict) (after : list pyval)
    (w : World) (st : State) :
  self st !! "host_name" = Some host_name ->
  dict_get_default pod "metadata" (PDict []) = PDict md ->
  eq_host_name (dict_get md "name") host_name = true ->
  dict_get_default pod "status" (PDict []) = PDict status ->
  dict_get_default pod "spec" (PDict []) = PDict spec ->
  scan_pods (PDict pod :: after) w st =
    (Ok (), with_identity st (dict_get_default status "hostIP" (PStr ""))
                             (dict_get_default spec "nodeName" (PStr ""))).
Proof.
  intros Hhn Hmd Hname Hstatus Hspec. cbn [scan_pods].
  rewrite bind_run. unfold lift at 1. cbn [py_get_default]. rewrite Hmd.
  rewrite bind_run. unfold lift at 1. cbn [py_get py_get_default].
  rewrite bind_run, (getattr_run _ _ _ _ Hhn).
  fold (dict_get md "name"). rewrite Hname.
  rewrite bind_run. unfold lift at 1. cbn [py_get_default]. rewrite Hstatus.
  rewrite bind_run. unfold lift at 1. cbn [py_get_default]. rewrite Hspec.
  reflexivity.
Qed.

Lemma bind_silent_log {A B} (m : M A) (f : A -> M B) (w : World) (st : State) :
  (forall a, silent (f a)) -> log ((m ≫= f) w st).2 = log (m w st).2.
Proof.
  intros Hf. rewrite bind_run. destruct (m w st) as [[a|e] st1]; [|reflexivity].
  apply Hf.
Qed.

Lemma _fetch_host_data_log (w : World) (st : State) (tls : dict) (url : string) :
  self st !! "tls_settings" = Some (PDict tls) ->
  self st !! "pods_list_url" = Some (PStr url) ->
  log (_fetch_host_data w st).2 = log st ++ [pods_request w tls url].
Proof.
  intros Htls Hurl. rewrite (_fetch_host_data_run _ _ _ _ Htls Hurl).
  destruct (pod_items_answer w _) as [pod_items|e]; [|reflexivity].
  rewrite bind_silent_log by apply silent_scan_pods. reflexivity.
Qed.

Lemma get_node_info_fetch (w : World) (st : State) (ip0 nm0 : pyval) :
  self st !! "_node_ip" = Some ip0 ->
  self st !! "_node_name" = Some nm0 ->
  is_none ip0 || is_none nm0 = true ->
  get_node_info w st =
    (_ ← _fetch_host_data;
     node_ip ← getattr "_node_ip";
     node_name ← getattr "_node_name";
     mret (node_ip, node_name)) w st.
Proof.
  intros Hip Hnm Hnone. unfold get_node_info.
  rewrite bind_run, (getattr_run _ _ _ _ Hip).
  rewrite bind_run, (getattr_run _ _ _ _ Hnm).
  now rewrite Hnone.
Qed.

Lemma get_node_info_cached (w : World) (st : State) (ip nm : pyval) :
  self st !! "_node_ip" = Some ip ->
  self st !! "_node_name" = Some nm ->
  is_none ip || is_none nm = false ->
  get_node_info w st = (Ok (ip, nm), st).
Proof.
  intros Hip Hnm Hnone. unfold get_node_info.
  rewrite bind_run, (getattr_run _ _ _ _ Hip).
  rewrite bind_run, (getattr_run _ _ _ _ Hnm).
  rewrite Hnone. rewrite bind_run. unfold mret at 1, M_ret at 1.
  rewrite bind_run, (getattr_run _ _ _ _ Hip).
  now rewrite bind_run, (getattr_run _ _ _ _ Hnm).
Qed.

(** C7. While an identity field is null, [get_node_info] fetches the pod
    list. When the retrieval fails, the fields stay as they were, null and
    not the empty string, and the next query sends the pod-list request
    again. When the list holds a pod whose name is the host name, the first
    such pod gives the identity: its [status.hostIP] and [spec.nodeName],
    each replaced by the empty string when it is missing; once both are
    there, later queries return the same pair and send nothing. *)
Theorem get_node_info_spec (w : World) (st : State) (tls : dict) (url : string)
    (host_name ip0 nm0 : pyval) :
  initialised st tls url host_name ->
  self st !! "_node_ip" = Some ip0 ->
  self st !! "_node_name" = Some nm0 ->
  is_none ip0 || is_none nm0 = true ->
  let r := pods_request w tls url in
  (forall e, pod_items_answer w r = Raise e ->
     get_node_info w st = (Ok (ip0, nm0), logged st r) /\
     forall w', log (get_node_info w' (logged st r)).2 =
                log st ++ [r; pods_request w' tls url]) /\
  (forall before pod after md status spec,
     pod_items_answer w r = Ok (PList (before ++ PDict pod :: after)) ->
     forallb (passed_over host_name) before = true ->
     dict_get_default pod "metadata" (PDict []) = PDict md ->
     eq_host_name (dict_get md "name") host_name = true ->
     dict_get_default pod "status" (PDict []) = PDict status ->
     dict_get_default pod "spec" (PDict []) = PDict spec ->
     let ip := match dict_lookup status "hostIP" with Some v => v | None => PStr "" end in
     let nm := match dict_lookup spec "nodeName" with Some v => v | None => PStr "" end in
     let st1 := with_identity (logged st r) ip nm in
     get_node_info w st = (Ok (ip, nm), st1) /\
     (ip <> PNone -> nm <> PNone ->
      forall w', get_node_info w' st1 = (Ok (ip, nm), st1))).
Proof.
  intros (Htls & Hurl & Hhn) Hip Hnm Hnone r. split.
  - intros e Hans. split.
    + rewrite (get_node_info_fetch _ _ _ _ Hip Hnm Hnone).
      rewrite bind_run, (_fetch_host_data_run _ _ _ _ Htls Hurl). fold r. rewrite Hans.
      rewrite bind_run, (getattr_run _ _ _ ip0) by exact Hip.
      now rewrite bind_run, (getattr_run _ _ _ nm0) by exact Hnm.
    + intros w'.
      rewrite (get_node_info_fetch w' (logged st r) ip0 nm0 Hip Hnm Hnone).
      rewrite bind_silent_log by (intros ?; silent_tac).
      rewrite (_fetch_host_data_log _ _ tls url) by assumption.
      cbn. now rewrite <- app_assoc.
  - intros before pod after md status spec Hans Hbefore Hmd Hname Hstatus Hspec ip nm st1.
    assert (Hip1 : self st1 !! "_node_ip" = Some ip).
    { subst st1. cbn. rewrite lookup_insert_ne by done. apply lookup_insert_eq. }
    assert (Hnm1 : self st1 !! "_node_name" = Some nm).
    { subst st1. cbn. apply lookup_insert_eq. }
    split.
    + rewrite (get_node_info_fetch _ _ _ _ Hip Hnm Hnone).
      rewrite bind_run, (_fetch_host_data_run _ _ _ _ Htls Hurl). fold r. rewrite Hans.
      rewrite bind_run. unfold lift at 1. cbn [py_iter].
      rewrite (scan_pods_passed_over host_name) by assumption.
      rewrite (scan_pods_match host_name pod md status spec) by assumption.
      fold ip nm st1.
      rewrite bind_run, (getattr_run _ _ _ ip) by exact Hip1.
      now rewrite bind_run, (getattr_run _ _ _ nm) by exact Hnm1.
    + intros Hipn Hnmn w'. apply get_node_info_cached; [exact Hip1|exact Hnm1|].
      destruct ip, nm; try reflexivity; congruence.
Qed.

(** ** Further properties of the queries *)

(** X1. [perform_kubelet_query] reads only [self.tls_settings]: without
    that attribute it raises AttributeError and sends nothing. With it, it
    sends one request with the [verbose] parameter, the timeout and the
    verify setting it was given, and hands back whatever [requests.get]
    gives: a response of any status is returned as it is, an exception is
    passed on. *)
Theorem perform_kubelet_query_uninspected (url : string) (verbose : pyval) (timeout : Z)
    (w : World) (st : State) :
  (self st !! "tls_settings" = None ->
   perform_kubelet_query url verbose timeout w st = (Raise AttributeError, st)) /\
  (forall tls, self st !! "tls_settings" = Some (PDict tls) ->
   exists r,
     req_url r = url /\
     req_params r = Some [("verbose", verbose)] /\
     req_timeout r = timeout /\
     req_verify r = dict_get_default tls "verify" (PBool true) /\
     snd (perform_kubelet_query url verbose timeout w st) = logged st r /\
     fst (perform_kubelet_query url verbose timeout w st) = requests_get w r).
Proof.
  split.
  - intros Hnone. unfold perform_kubelet_query. rewrite bind_run. unfold getattr at 1.
    now rewrite Hnone.
  - intros tls Htls. exists (kubelet_request w tls url verbose timeout).
    now rewrite (perform_kubelet_query_run _ _ _ _ _ _ Htls).
Qed.

(** X2. [retrieve_pods_list] needs [self.pods_list_url]: without it the
    call raises AttributeError and sends nothing. Otherwise it sends the
    pod-list request and returns the parsed body of the response whatever
    its status; a body that is not JSON raises ValueError, and an exception
    of the request is passed on. *)
Theorem retrieve_pods_list_spec (w : World) (st : State) :
  (self st !! "pods_list_url" = None ->
   retrieve_pods_list w st = (Raise AttributeError, st)) /\
  (forall tls url,
     self st !! "tls_settings" = Some (PDict tls) ->
     self st !! "pods_list_url" = Some (PStr url) ->
     let r := pods_request w tls url in
     snd (retrieve_pods_list w st) = logged st r /\
     (forall e, requests_get w r = Raise e -> fst (retrieve_pods_list w st) = Raise e) /\
     (forall resp, requests_get w r = Ok resp ->
        fst (retrieve_pods_list w st) =
          match json_body resp with Some pods => Ok pods | None => Raise ValueError end)).
Proof.
  split.
  - intros Hnone. unfold retrieve_pods_list. rewrite bind_run. unfold getattr at 1.
    now rewrite Hnone.
  - intros tls url Htls Hurl r.
    rewrite (retrieve_pods_list_run _ _ _ _ Htls Hurl). fold r. cbn [fst snd].
    split; [reflexivity|]. split.
    + now intros e ->.
    + now intros resp ->.
Qed.

(** X3. [get_kube_labels] is [extract_kube_labels] on the pod list of the
    kubelet: it sends the pod-list request once, changes no attribute, and
    its result is the index of the parsed body; when the retrieval raises,
    so does the call. *)
Theorem get_kube_labels_spec (excluded_keys : option (list string)) (w : World) (st : State)
    (tls : dict) (url : string) :
  self st !! "tls_settings" = Some (PDict tls) ->
  self st !! "pods_list_url" = Some (PStr url) ->
  let r := pods_request w tls url in
  snd (get_kube_labels excluded_keys w st) = logged st r /\
  (forall e, requests_get w r = Raise e ->
     fst (get_kube_labels excluded_keys w st) = Raise e) /\
  (forall resp pods, requests_get w r = Ok resp -> json_body resp = Some pods ->
     fst (get_kube_labels excluded_keys w st) = extract_kube_labels pods excluded_keys).
Proof.
  intros Htls Hurl r. unfold get_kube_labels.
  rewrite bind_run, (retrieve_pods_list_run _ _ _ _ Htls Hurl). fold r.
  destruct (requests_get w r) as [resp|e]; cbn.
  - unfold response_json. destruct (json_body resp) as [pods|] eqn:Hbody; cbn.
    + split; [reflexivity|]. split; [discriminate|].
      intros resp' pods' [= <-] Hb. rewrite Hbody in Hb. now injection Hb as <-.
    + split; [reflexivity|]. split; [discriminate|].
      intros resp' pods' [= <-] Hb. now rewrite Hbody in Hb.
  - split; [reflexivity|]. split; [now intros e' [= <-]|discriminate].
Qed.

(** X4. [retrieve_json_auth] sends exactly one request and changes no
    attribute, also when it raises: an exception of [requests.get] is passed
    on, and a response outside 400-599 whose body is not JSON raises
    ValueError. *)
Theorem retrieve_json_auth_errors (url : string) (auth_token : pyval) (timeout : Z)
    (verify : pyval) (w : World) (st : State) :
  let r := json_auth_request w url auth_token timeout verify in
  snd (retrieve_json_auth url auth_token timeout verify w st) = logged st r /\
  (forall e, requests_get w r = Raise e ->
     fst (retrieve_json_auth url auth_token timeout verify w st) = Raise e) /\
  (forall resp, requests_get w r = Ok resp ->
     ~ (400 <= status_code resp < 600)%Z -> json_body resp = None ->
     fst (retrieve_json_auth url auth_token timeout verify w st) = Raise ValueError).
Proof.
  intros r. rewrite retrieve_json_auth_run. fold r. cbn [fst snd].
  split; [reflexivity|]. split.
  - now intros e ->.
  - intros resp -> Hst Hbody. cbn. unfold raise_for_status, response_json.
    replace ((400 <=? status_code resp)%Z && (status_code resp <? 600)%Z) with false.
    + cbn. now rewrite Hbody.
    + symmetry. apply andb_false_iff.
      destruct (Z.leb_spec 400 (status_code resp)); [right|now left].
      apply Z.ltb_ge. lia.
Qed.

(** ** Further properties of the extractors *)

(** X5. Every entry of the index [extract_kube_labels] returns comes from a
    pod item with that key, is never the empty list, and holds only tags
    [kube_k:v] for labels [k] that are not excluded. *)
Theorem extract_kube_labels_entries (pods_list : pyval)
    (excluded_keys : option (list string)) (labels : gmap string (list string))
    (key : string) (tags : list string) :
  extract_kube_labels pods_list excluded_keys = Ok labels ->
  labels !! key = Some tags ->
  tags <> [] /\
  (exists pod pod_tags,
     pod ∈ pod_items_of pods_list /\
     pod_entry (default [] excluded_keys) pod = Some (key, pod_tags)) /\
  (forall tag, tag ∈ tags ->
     exists k v, tag = "kube_" +:+ k +:+ ":" +:+ py_str v /\
                 k ∉ default [] excluded_keys).
Proof.
  intros Hrun%extract_kube_labels_items Hkey.
  pose proof (extract_pods_lookup _ _ ∅ labels (fun _ => []) (fun _ => eq_refl) Hrun key)
    as Hlookup.
  rewrite Hkey in Hlookup. cbn [app] in Hlookup.
  set (all := concat (map (tags_for (default [] excluded_keys) key) (pod_items_of pods_list)))
    in Hlookup.
  assert (Hall : tags = all /\ all <> []).
  { destruct all; [discriminate|]. now injection Hlookup as ->. }
  destruct Hall as [-> Hne].
  assert (Hfrom : forall tag, tag ∈ all ->
            exists pod pod_tags,
              pod ∈ pod_items_of pods_list /\
              pod_entry (default [] excluded_keys) pod = Some (key, pod_tags) /\
              tag ∈ pod_tags).
  { intros tag Htag%list_elem_of_In. subst all.
    apply in_concat in Htag as (l & Hl & Htag).
    apply in_map_iff in Hl as (pod & <- & Hpod%list_elem_of_In).
    unfold tags_for in Htag.
    destruct (pod_entry (default [] excluded_keys) pod) as [[k pod_tags]|] eqn:Hentry;
      [|destruct Htag].
    destruct (String.eqb_spec k key) as [->|]; [|destruct Htag].
    apply list_elem_of_In in Htag. eauto. }
  split; [exact Hne|]. split.
  - destruct all as [|tag rest]; [done|].
    destruct (Hfrom tag) as (pod & pod_tags & Hpod & Hentry & _); [left|]. eauto.
  - intros tag (pod & pod_tags & _ & Hentry & Htag)%Hfrom.
    unfold pod_entry in Hentry.
    destruct pod as [| | | | | |p]; try discriminate.
    destruct (dict_get_default p "metadata" (PDict [])) as [| | | | | |md]; try discriminate.
    destruct (dict_get md "labels") as [| | | | | |[|kv l]]; try discriminate.
    destruct (truthy _ && truthy _); [|discriminate].
    injection Hentry as _ <-.
    apply list_elem_of_In, in_map_iff in Htag as ([k v] & <- & Hkv%list_elem_of_In).
    apply list_elem_of_filter in Hkv as [Hex _]. eauto.
Qed.

(** X6. On a pod list whose [items] are missing, null or empty,
    [extract_kube_labels] returns the empty index; on a pod list that is not
    an object it raises AttributeError. *)
Theorem extract_kube_labels_no_items (pods_list : pyval)
    (excluded_keys : option (list string)) :
  (forall d, pods_list = PDict d -> truthy (dict_get d "items") = false ->
     extract_kube_labels pods_list excluded_keys = Ok ∅) /\
  (is_dict pods_list = false ->
     extract_kube_labels pods_list excluded_keys = Raise AttributeError).
Proof.
  split.
  - intros d -> Hitems. unfold extract_kube_labels, py_get, py_get_default, py_or.
    cbn. fold (dict_get d "items"). now rewrite Hitems.
  - now destruct pods_list.
Qed.

(** X7. [extract_event_tags] raises on an event whose fields do not have
    the types it expects: AttributeError when [reason] is there and is not a
    string, and, when [reason] passes, TypeError when [metadata] is there
    and is null, a number or a boolean. *)
Theorem extract_event_tags_ill_typed (event : dict) :
  (forall v, dict_lookup event "reason" = Some v -> is_str v = false ->
     extract_event_tags event = Raise AttributeError) /\
  (forall v, field_is is_str event "reason" = true ->
     dict_lookup event "metadata" = Some v ->
     match v with PNone | PBool _ | PInt _ => True | _ => False end ->
     extract_event_tags event = Raise TypeError).
Proof.
  split.
  - intros v Hreason Hv. unfold extract_event_tags, dict_has, dict_get_default.
    rewrite Hreason. now destruct v.
  - intros v Hreason Hmd Hv. unfold extract_event_tags, dict_has, dict_get_default, field_is in *.
    rewrite Hmd.
    destruct (dict_lookup event "reason") as [[]|]; try discriminate; now destruct v.
Qed.

(** ** Further properties of the host selection *)

(** X8. [node_hostname] yields no name unless the apiserver lists exactly
    one node: a list of no node and a list of several nodes both give
    [None]; an answer without [items] raises KeyError. *)
Theorem node_hostname_count (d : dict) :
  (dict_lookup d "items" = None -> node_hostname (PDict d) = Raise KeyError) /\
  (forall l, dict_lookup d "items" = Some (PList l) -> length l <> 1 ->
     node_hostname (PDict d) = Ok PNone).
Proof.
  unfold node_hostname. cbn [py_getitem]. split.
  - now intros ->.
  - intros l -> Hlen. cbn. destruct (Nat.eqb_spec (length l) 1); [done|reflexivity].
Qed.

Lemma find_hostname_address_other (before rest : list pyval) :
  forallb other_address before = true ->
  find_hostname_address (before ++ rest) = find_hostname_address rest.
Proof.
  induction before as [|a before IH]; [reflexivity|].
  cbn [forallb app]. intros [Ha Hbefore]%andb_prop.
  rewrite <- IH by exact Hbefore. cbn [find_hostname_address].
  destruct a as [| | | | | |a]; try discriminate. cbn in Ha |- *.
  fold (dict_get a "type").
  destruct (dict_get a "type") as [| | |s| | |]; try reflexivity.
  destruct (String.eqb_spec s "Hostname") as [->|Hne]; [discriminate|].
  repeat (destruct s as [|[[] [] [] [] [] [] [] []] s]; try reflexivity; try done).
Qed.

(** X9. For the one node the apiserver lists, [node_hostname] returns the
    [address] of the first entry of [status.addresses] whose [type] is
    [Hostname], raises KeyError when that entry has no [address], and
    returns [None] when no entry has that type. *)
Theorem node_hostname_first (d n status : dict) (addresses : list pyval) :
  dict_lookup d "items" = Some (PList [PDict n]) ->
  dict_get_default n "status" (PDict []) = PDict status ->
  dict_get_default status "addresses" (PList []) = PList addresses ->
  (forallb other_address addresses = true -> node_hostname (PDict d) = Ok PNone) /\
  (forall before a after,
     addresses = before ++ PDict a :: after ->
     forallb other_address before = true ->
     dict_lookup a "type" = Some (PStr "Hostname") ->
     node_hostname (PDict d) =
       match dict_lookup a "address" with
       | Some name => Ok name
       | None => Raise KeyError
       end).
Proof.
  intros Hitems Hstatus Haddr.
  assert (Hrun : node_hostname (PDict d) = find_hostname_address addresses).
  { unfold node_hostname. cbn [py_getitem]. rewrite Hitems. cbn.
    unfold py_or. destruct d as [|kv d]; [discriminate|]. cbn [truthy py_get_default].
    unfold dict_get_default at 1. rewrite Hitems. cbn.
    rewrite Hstatus. cbn. now rewrite Haddr. }
  rewrite Hrun. split.
  - intros Hall. rewrite <- (app_nil_r addresses).
    now rewrite find_hostname_address_other.
  - intros before a after -> Hbefore Hty.
    rewrite find_hostname_address_other by exact Hbefore.
    cbn. unfold dict_get_default. now rewrite Hty.
Qed.

Lemma get_node_hostname_effect (host : string) (w : World) (st st' : State)
    (res : result pyval) :
  get_node_hostname host w st = (res, st') ->
  self st' = self st /\
  exists sent, log st' = log st ++ sent /\ length sent <= 1.
Proof.
  assert (Hnil : exists sent, log st = log st ++ sent /\ length sent <= 1).
  { exists []. rewrite app_nil_r. cbn. split; [reflexivity|lia]. }
  assert (Hone : forall r, exists sent,
            log (logged st r) = log st ++ sent /\ length sent <= 1).
  { intros r. exists [r]. cbn. split; [reflexivity|lia]. }
  unfold get_node_hostname. rewrite bind_run. unfold getattr at 1.
  destruct (self st !! "kubernetes_api_url") as [api_url|];
    [|intros [= <- <-]; now split].
  rewrite bind_run. unfold lift at 1.
  destruct (as_str api_url); [|intros [= <- <-]; now split].
  rewrite bind_run. unfold get_auth_token at 1. rewrite bind_run. unfold ask at 1.
  unfold mret at 1, M_ret at 1. cbv beta iota.
  rewrite bind_run, retrieve_json_auth_run. cbv beta iota zeta.
  destruct (mbind _ _) as [node|e]; [|intros [= <- <-]; split; [reflexivity|apply Hone]].
  unfold lift. intros [= <- <-]. split; [reflexivity|apply Hone].
Qed.

(** X10. The host selection never raises once the TLS settings are there:
    every exception of the apiserver lookup is swallowed. It sends at most
    one request, changes no attribute, and the host it returns is a
    non-empty value whenever the container runtime reports a non-empty
    hostname. *)
Theorem locate_host_total (instance : dict) (w : World) (st : State) (tls : dict)
    (verify : pyval) :
  self st !! "tls_settings" = Some (PDict tls) ->
  dict_lookup tls "verify" = Some verify ->
  exists host st',
    locate_host instance w st = (Ok host, st') /\
    self st' = self st /\
    (exists sent, log st' = log st ++ sent /\ length sent <= 1) /\
    (docker_hostname w <> "" -> truthy host = true).
Proof.
  intros Htls Hverify.
  assert (Hdocker : docker_hostname w <> "" -> truthy (PStr (docker_hostname w)) = true).
  { intros Hne. cbn. now destruct (String.eqb_spec (docker_hostname w) ""). }
  assert (Hnil : exists sent, log st = log st ++ sent /\ length sent <= 1).
  { exists []. rewrite app_nil_r. cbn. split; [reflexivity|lia]. }
  unfold locate_host. rewrite bind_run. unfold ask at 1. cbv beta iota zeta.
  destruct (truthy (py_or _ _)) eqn:Hhost; cbn [negb].
  { eexists _, st. split; [reflexivity|]. split; [reflexivity|]. now split. }
  rewrite bind_run, (getattr_run _ _ _ _ Htls). rewrite bind_run.
  unfold lift at 1. cbn [py_getitem]. rewrite Hverify.
  destruct (truthy verify).
  2: { eexists _, st. split; [reflexivity|]. split; [reflexivity|]. now split. }
  unfold try_except. rewrite bind_run.
  destruct (get_node_hostname (docker_hostname w) w st) as [[name|e] st1] eqn:Hrun;
    destruct (get_node_hostname_effect _ _ _ _ _ Hrun) as [Hself Hsent].
  - eexists _, st1. split; [reflexivity|]. split; [exact Hself|]. split; [exact Hsent|].
    intros Hne. unfold py_or. destruct (truthy name) eqn:Hname; [exact Hname|auto].
  - eexists _, st1. split; [reflexivity|]. split; [exact Hself|]. now split.
Qed.

(** ** Further properties of the node identity *)

Lemma get_node_info_scan (w : World) (st : State) (tls : dict) (url : string)
    (ip0 nm0 items : pyval) :
  self st !! "tls_settings" = Some (PDict tls) ->
  self st !! "pods_list_url" = Some (PStr url) ->
  self st !! "_node_ip" = Some ip0 ->
  self st !! "_node_name" = Some nm0 ->
  is_none ip0 || is_none nm0 = true ->
  pod_items_answer w (pods_request w tls url) = Ok items ->
  get_node_info w st =
    (pod_items ← lift (py_iter items);
     _ ← scan_pods pod_items;
     node_ip ← getattr "_node_ip";
     node_name ← getattr "_node_name";
     mret (node_ip, node_name)) w (logged st (pods_request w tls url)).
Proof.
  intros Htls Hurl Hip Hnm Hnone Hans.
  rewrite (get_node_info_fetch _ _ _ _ Hip Hnm Hnone).
  rewrite bind_run, (_fetch_host_data_run _ _ _ _ Htls Hurl), Hans.
  rewrite !bind_run. unfold lift at 1 2.
  destruct (py_iter items) as [pod_items|e]; [|reflexivity].
  now rewrite bind_run.
Qed.

Lemma get_node_info_refetch (w : World) (st : State) (tls : dict) (url : string)
    (ip0 nm0 : pyval) :
  self st !! "tls_settings" = Some (PDict tls) ->
  self st !! "pods_list_url" = Some (PStr url) ->
  self st !! "_node_ip" = Some ip0 ->
  self st !! "_node_name" = Some nm0 ->
  is_none ip0 || is_none nm0 = true ->
  log (get_node_info w st).2 = log st ++ [pods_request w tls url].
Proof.
  intros Htls Hurl Hip Hnm Hnone.
  rewrite (get_node_info_fetch _ _ _ _ Hip Hnm Hnone).
  rewrite bind_silent_log by (intros ?; silent_tac).
  now apply _fetch_host_data_log.
Qed.

(** X11. When no pod of the list is named as the host, [get_node_info]
    returns the identity fields as they were and stores nothing; the miss is
    not remembered, so the next query sends the pod-list request again. *)
Theorem get_node_info_no_match (w : World) (st : State) (tls : dict) (url : string)
    (host_name ip0 nm0 : pyval) (pod_items : list pyval) :
  initialised st tls url host_name ->
  self st !! "_node_ip" = Some ip0 ->
  self st !! "_node_name" = Some nm0 ->
  is_none ip0 || is_none nm0 = true ->
  let r := pods_request w tls url in
  pod_items_answer w r = Ok (PList pod_items) ->
  forallb (passed_over host_name) pod_items = true ->
  get_node_info w st = (Ok (ip0, nm0), logged st r) /\
  forall w', log (get_node_info w' (logged st r)).2 =
             log st ++ [r; pods_request w' tls url].
Proof.
  intros (Htls & Hurl & Hhn) Hip Hnm Hnone r Hans Hpass. split.
  - rewrite (get_node_info_scan _ _ _ _ _ _ _ Htls Hurl Hip Hnm Hnone Hans). fold r.
    rewrite bind_run. unfold lift at 1. cbn [py_iter].
    rewrite bind_run, <- (app_nil_r pod_items).
    rewrite (scan_pods_passed_over host_name) by assumption.
    cbn [scan_pods]. unfold mret at 1, M_ret at 1.
    rewrite bind_run, (getattr_run _ _ _ ip0) by exact Hip.
    now rewrite bind_run, (getattr_run _ _ _ nm0) by exact Hnm.
  - intros w'.
    rewrite (get_node_info_refetch w' (logged st r) tls url ip0 nm0) by assumption.
    cbn. now rewrite <- app_assoc.
Qed.

(** X12. With no [HOSTNAME] in the environment the host name is [None],
    and a pod without a name compares equal to it: the first such pod of the
    list is taken as the local pod and gives the identity. *)
Theorem get_node_info_unset_hostname (w : World) (st : State) (tls : dict) (url : string)
    (before after : list pyval) (pod md status spec : dict) :
  initialised st tls url PNone ->
  self st !! "_node_ip" = Some PNone ->
  self st !! "_node_name" = Some PNone ->
  let r := pods_request w tls url in
  pod_items_answer w r = Ok (PList (before ++ PDict pod :: after)) ->
  forallb (passed_over PNone) before = true ->
  dict_get_default pod "metadata" (PDict []) = PDict md ->
  dict_lookup md "name" = None ->
  dict_get_default pod "status" (PDict []) = PDict status ->
  dict_get_default pod "spec" (PDict []) = PDict spec ->
  fst (get_node_info w st) =
    Ok (dict_get_default status "hostIP" (PStr ""),
        dict_get_default spec "nodeName" (PStr "")).
Proof.
  intros (Htls & Hurl & Hhn) Hip Hnm r Hans Hbefore Hmd Hname Hstatus Hspec.
  rewrite (get_node_info_scan _ _ _ _ _ _ _ Htls Hurl Hip Hnm eq_refl Hans). fold r.
  rewrite bind_run. unfold lift at 1. cbn [py_iter].
  rewrite bind_run, (scan_pods_passed_over PNone) by assumption.
  rewrite (scan_pods_match PNone pod md status spec); try assumption.
  - rewrite bind_run. unfold getattr at 1. cbn [self with_identity].
    rewrite lookup_insert_ne by done. rewrite lookup_insert_eq.
    rewrite bind_run. unfold getattr at 1. cbn [self with_identity].
    now rewrite lookup_insert_eq.
  - unfold dict_get, dict_get_default. now rewrite Hname.
Qed.

(** X13. An identity is kept only when both values are there: when the
    matching pod's [hostIP] is null, the query returns a null IP with the
    node name, and the next query sends the pod-list request again. *)
Theorem get_node_info_null_ip (w : World) (st : State) (tls : dict) (url : string)
    (host_name ip0 nm0 : pyval) (before after : list pyval) (pod md status spec : dict) :
  initialised st tls url host_name ->
  self st !! "_node_ip" = Some ip0 ->
  self st !! "_node_name" = Some nm0 ->
  is_none ip0 || is_none nm0 = true ->
  let r := pods_request w tls url in
  pod_items_answer w r = Ok (PList (before ++ PDict pod :: after)) ->
  forallb (passed_over host_name) before = true ->
  dict_get_default pod "metadata" (PDict []) = PDict md ->
  eq_host_name (dict_get md "name") host_name = true ->
  dict_get_default pod "status" (PDict []) = PDict status ->
  dict_get_default pod "spec" (PDict []) = PDict spec ->
  dict_lookup status "hostIP" = Some PNone ->
  let nm := dict_get_default spec "nodeName" (PStr "") in
  let st1 := with_identity (logged st r) PNone nm in
  get_node_info w st = (Ok (PNone, nm), st1) /\
  forall w', log (get_node_info w' st1).2 = log st ++ [r; pods_request w' tls url].
Proof.
  intros (Htls & Hurl & Hhn) Hip Hnm Hnone r Hans Hbefore Hmd Hname Hstatus Hspec Hnull
    nm st1.
  assert (Hip1 : self st1 !! "_node_ip" = Some PNone).
  { subst st1. cbn. rewrite lookup_insert_ne by done. apply lookup_insert_eq. }
  assert (Hnm1 : self st1 !! "_node_name" = Some nm).
  { subst st1. cbn. apply lookup_insert_eq. }
  split.
  - rewrite (get_node_info_scan _ _ _ _ _ _ _ Htls Hurl Hip Hnm Hnone Hans). fold r.
    rewrite bind_run. unfold lift at 1. cbn [py_iter].
    rewrite bind_run, (scan_pods_passed_over host_name) by assumption.
    rewrite (scan_pods_match host_name pod md status spec) by assumption.
    replace (dict_get_default status "hostIP" (PStr "")) with PNone
      by (unfold dict_get_default; now rewrite Hnull).
    fold nm st1.
    rewrite bind_run, (getattr_run _ _ _ PNone) by exact Hip1.
    now rewrite bind_run, (getattr_run _ _ _ nm) by exact Hnm1.
  - intros w'.
    rewrite (get_node_info_refetch w' st1 tls url PNone nm); try assumption; try reflexivity.
    + cbn. now rewrite <- app_assoc.
    + subst st1. cbn. now rewrite !lookup_insert_ne.
    + subst st1. cbn. now rewrite !lookup_insert_ne.
Qed.

(** X14. Only the retrieval of the pod list is guarded: when the [items]
    it yields cannot be iterated (a number, a boolean), or hold something
    that is not an object, the exception of the scan leaves
    [get_node_info], after the request was sent. *)
Theorem get_node_info_scan_raises (w : World) (st : State) (tls : dict) (url : string)
    (ip0 nm0 items : pyval) :
  self st !! "tls_settings" = Some (PDict tls) ->
  self st !! "pods_list_url" = Some (PStr url) ->
  self st !! "_node_ip" = Some ip0 ->
  self st !! "_node_name" = Some nm0 ->
  is_none ip0 || is_none nm0 = true ->
  let r := pods_request w tls url in
  pod_items_answer w r = Ok items ->
  (forall e, py_iter items = Raise e -> get_node_info w st = (Raise e, logged st r)) /\
  (forall pod rest, py_iter items = Ok (pod :: rest) -> is_dict pod = false ->
     get_node_info w st = (Raise AttributeError, logged st r)).
Proof.
  intros Htls Hurl Hip Hnm Hnone r Hans.
  rewrite (get_node_info_scan _ _ _ _ _ _ _ Htls Hurl Hip Hnm Hnone Hans). fold r.
  rewrite bind_run. split.
  - intros e ->. reflexivity.
  - intros pod rest -> Hpod. unfold lift at 1. cbv beta iota.
    rewrite bind_run. cbn [scan_pods].
    rewrite bind_run. unfold lift at 1. now destruct pod.
Qed.

(** X15. The two identity fields are stored one after the other: when the
    matching pod has a [status] object but its [spec] is not an object, the
    scan stores the IP, then raises AttributeError, and the node name stays
    as it was. *)
Theorem get_node_info_partial (w : World) (st : State) (tls : dict) (url : string)
    (host_name ip0 nm0 spec : pyval) (before after : list pyval) (pod md status : dict) :
  initialised st tls url host_name ->
  self st !! "_node_ip" = Some ip0 ->
  self st !! "_node_name" = Some nm0 ->
  is_none ip0 || is_none nm0 = true ->
  let r := pods_request w tls url in
  pod_items_answer w r = Ok (PList (before ++ PDict pod :: after)) ->
  forallb (passed_over host_name) before = true ->
  dict_get_default pod "metadata" (PDict []) = PDict md ->
  eq_host_name (dict_get md "name") host_name = true ->
  dict_get_default pod "status" (PDict []) = PDict status ->
  dict_get_default pod "spec" (PDict []) = spec ->
  is_dict spec = false ->
  exists st1,
    get_node_info w st = (Raise AttributeError, st1) /\
    self st1 !! "_node_ip" = Some (dict_get_default status "hostIP" (PStr "")) /\
    self st1 !! "_node_name" = Some nm0.
Proof.
  intros (Htls & Hurl & Hhn) Hip Hnm Hnone r Hans Hbefore Hmd Hname Hstatus Hspec Hnd.
  rewrite (get_node_info_scan _ _ _ _ _ _ _ Htls Hurl Hip Hnm Hnone Hans). fold r.
  rewrite bind_run. unfold lift at 1. cbn [py_iter].
  rewrite bind_run, (scan_pods_passed_over host_name) by assumption.
  cbn [scan_pods].
  rewrite bind_run. unfold lift at 1. cbn [py_get_default]. rewrite Hmd.
  rewrite bind_run. unfold lift at 1. cbn [py_get py_get_default].
  rewrite bind_run, (getattr_run _ _ _ host_name) by exact Hhn.
  fold (dict_get md "name"). rewrite Hname.
  rewrite bind_run. unfold lift at 1. cbn [py_get_default]. rewrite Hstatus.
  rewrite bind_run. unfold lift at 1. cbn [py_get_default]. rewrite Hspec.
  rewrite bind_run. unfold lift at 1. cbn [py_get_default].
  rewrite bind_run. unfold setattr at 1.
  rewrite bind_run. unfold lift at 1.
  eexists. split.
  - destruct spec; try discriminate; reflexivity.
  - cbn. split; [apply lookup_insert_eq|]. now rewrite lookup_insert_ne.
Qed.

(** ** Further properties of the construction *)

Lemma append_cons (c : ascii) (a b : string) : String c a +:+ b = String c (a +:+ b).
Proof. reflexivity. Qed.

Lemma append_nil_r (s : string) : s +:+ "" = s.
Proof. induction s as [|c s IH]; [reflexivity|]. now rewrite append_cons, IH. Qed.

Lemma rev_app_append (s acc t : string) :
  String.rev_app s acc +:+ t = String.rev_app s (acc +:+ t).
Proof.
  revert acc. induction s as [|c s IH]; intros acc; [reflexivity|].
  change (String.rev_app (String c s) acc) with (String.rev_app s (String c acc)).
  change (String.rev_app (String c s) (acc +:+ t))
    with (String.rev_app s (String c acc +:+ t)).
  apply IH.
Qed.

Lemma split_go_head (s cur : string) :
  exists tl, split_go ":" cur s = (String.rev cur +:+ before_colon s) :: tl.
Proof.
  revert cur. induction s as [|c s IH]; intros cur; cbn [split_go before_colon].
  - exists []. now rewrite append_nil_r.
  - destruct (Ascii.eqb c ":").
    + eexists. now rewrite append_nil_r.
    + destruct (IH (String c cur)) as [tl ->]. exists tl. f_equal.
      unfold String.rev.
      change (String.rev_app (String c cur) "") with (String.rev_app cur (String c "")).
      now rewrite !rev_app_append.
Qed.

Lemma before_colon_app (h p : string) :
  before_colon (h +:+ String ":" p) = before_colon h.
Proof.
  induction h as [|c h IH]; [reflexivity|].
  rewrite append_cons. cbn [before_colon].
  destruct (Ascii.eqb c ":"); [reflexivity|now rewrite IH].
Qed.

Lemma _locate_kubelet_url (instance : dict) (w : World) (st st' : State) (url : string) :
  _locate_kubelet instance w st = (Ok url, st') ->
  exists host, url = no_auth_url instance host \/ url = https_url instance host.
Proof.
  unfold _locate_kubelet. rewrite bind_run.
  destruct (locate_host instance w st) as [[host|e] st1]; [|discriminate].
  unfold probe_kubelet, try_except. rewrite !bind_run.
  destruct (perform_kubelet_query _ _ _ w st1) as [[resp|e] st2].
  - cbv beta iota. unfold mret, M_ret. intros [= <- _]. eauto.
  - cbv beta iota. unfold mret at 1, M_ret at 1. rewrite bind_run.
    destruct (perform_kubelet_query _ _ _ w st2) as [[resp|e2] st3]; [|discriminate].
    unfold mret, M_ret. intros [= <- _]. eauto.
Qed.

Lemma kubelet_host_of_url (instance : dict) (host : pyval) (url : string) :
  url = no_auth_url instance host \/ url = https_url instance host ->
  exists scheme tl,
    split ":" url = scheme :: ("//" +:+ before_colon (py_str host)) :: tl.
Proof.
  assert (Hsplit : forall h p, exists tl,
            split_go ":" "//" (h +:+ ":" +:+ p) = ("//" +:+ before_colon h) :: tl).
  { intros h p. destruct (split_go_head (h +:+ String ":" p) "//") as [tl Htl].
    exists tl. rewrite before_colon_app in Htl. exact Htl. }
  intros [-> | ->].
  - destruct (Hsplit (py_str host)
                (py_str (dict_get_default instance "kubelet_port"
                           (PInt DEFAULT_HTTP_KUBELET_PORT)))) as [tl Htl].
    exists "http", tl. rewrite <- Htl. reflexivity.
  - destruct (Hsplit (py_str host)
                (py_str (dict_get_default instance "kubelet_port"
                           (PInt DEFAULT_HTTPS_KUBELET_PORT)))) as [tl Htl].
    exists "https", tl. rewrite <- Htl. reflexivity.
Qed.

Lemma _init_tls_settings_dict (instance : dict) (w : World) (st st' : State) (tls : pyval) :
  _init_tls_settings instance w st = (Ok tls, st') ->
  exists d, tls = PDict d /\ dict_lookup d "verify" = Some (verify_of instance).
Proof.
  unfold _init_tls_settings, verify_of, dict_get, dict_get_default. mrun.
  destruct (if truthy _ && truthy _ then _ else _) as [[]|]; [| |discriminate].
  all: intros [= <- _]; eexists; split; [reflexivity|].
  all: destruct (dict_lookup instance "kubelet_cert") as [ca|]; cbn; [destruct (truthy ca)|];
    reflexivity.
Qed.

Ltac lookup_attr :=
  cbn [self]; repeat (rewrite lookup_insert_ne by done); try apply lookup_insert_eq.

Lemma __init___ok (instance : option dict) (w : World) (st : State) :
  __init__ instance w fresh = (Ok (), st) ->
  let inst := match instance with Some i => i | None => default [] (yaml_instance w) end in
  exists host url tls port,
    (url = no_auth_url inst host \/ url = https_url inst host) /\
    py_fmt_d (dict_get_default inst "port" (PInt DEFAULT_CADVISOR_PORT)) = Ok port /\
    dict_lookup tls "verify" = Some (verify_of inst) /\
    (exists r, r ∈ log st /\ is_kubelet_query r = true /\ is_ok (requests_get w r) = true) /\
    self st !! "kubelet_api_url" = Some (PStr url) /\
    self st !! "kubelet_host" = Some (PStr (lstrip "/" (before_colon (py_str host)))) /\
    self st !! "pods_list_url" = Some (PStr (urljoin url PODS_LIST_PATH)) /\
    self st !! "kube_health_url" = Some (PStr (urljoin url KUBELET_HEALTH_PATH)) /\
    self st !! "tls_settings" = Some (PDict tls) /\
    self st !! "host_name" = Some (os_environ_get w "HOSTNAME") /\
    self st !! "_node_ip" = Some PNone /\
    self st !! "_node_name" = Some PNone /\
    self st !! "cadvisor_url" =
      Some (PStr (py_str (dict_get_default inst "method" (PStr DEFAULT_METHOD)) +:+ "://" +:+
                  lstrip "/" (before_colon (py_str host)) +:+ ":" +:+ port)).
Proof.
  unfold __init__. rewrite bind_run. unfold ask at 1. cbv beta iota zeta.
  set (inst := match instance with Some i => i | None => default [] (yaml_instance w) end).
  do 5 (rewrite bind_run; unfold setattr at 1; cbv beta iota).
  cbn [self log fresh].
  set (st5 := {| self := _; log := [] |}).
  rewrite bind_run.
  pose proof (_init_tls_settings_state inst w st5) as Htls_st.
  destruct (_init_tls_settings inst w st5) as [[tls|e] st5'] eqn:Htls; cbn in Htls_st;
    subst st5'; [|discriminate].
  destruct (_init_tls_settings_dict _ _ _ _ _ Htls) as (d & -> & Hverify).
  rewrite bind_run; unfold setattr at 1; cbv beta iota.
  set (st6 := {| self := _; log := _ |}).
  rewrite bind_run. unfold try_except at 1. rewrite bind_run.
  pose proof (_locate_kubelet_self inst w st6) as Hself.
  destruct (_locate_kubelet inst w st6) as [[url|e] st7] eqn:Hloc; cbn in Hself;
    [|discriminate].
  destruct (_locate_kubelet_url _ _ _ _ _ Hloc) as [host Hurl].
  apply _locate_kubelet_ok in Hloc as (r & Hin & Hq & Hok).
  destruct (kubelet_host_of_url _ _ _ Hurl) as (scheme & tl & Hsplit).
  rewrite bind_run. unfold setattr at 1. cbv beta iota.
  destruct (negb (truthy (PStr url))); [discriminate|].
  unfold mret at 1, M_ret at 1. cbv beta iota.
  rewrite bind_run. unfold getattr at 1. cbn [self]. rewrite lookup_insert_eq.
  rewrite bind_run. unfold lift at 1. cbn [as_str].
  rewrite bind_run. unfold lift at 1. rewrite Hsplit.
  do 4 (rewrite bind_run; unfold setattr at 1; cbv beta iota).
  cbn [self log].
  rewrite bind_run. unfold getattr at 1. cbn [self].
  repeat (rewrite lookup_insert_ne by done). rewrite Hself. subst st6 st5. cbn [self].
  repeat (rewrite lookup_insert_ne by done). rewrite lookup_insert_eq.
  rewrite bind_run. unfold lift at 1.
  destruct (py_fmt_d (dict_get_default inst "port" (PInt DEFAULT_CADVISOR_PORT)))
    as [port|]; [|discriminate].
  do 3 (rewrite bind_run; unfold setattr at 1; cbv beta iota).
  unfold setattr. cbn [self log]. intros [= <-].
  exists host, url, d, port.
  split; [exact Hurl|]. split; [reflexivity|]. split; [exact Hverify|].
  split; [now exists r|].
  repeat split; lookup_attr.
Qed.


(** X17. The host stored by a construction that succeeds is the part of
    the base URL between the scheme and the next colon, that is, the located
    host cut at its first colon and stripped of leading slashes; the
    cadvisor URL is made of the configured [method] (default [http], whatever
    probe was answered), that host and the configured [port] (default 4194). *)
Theorem __init___cadvisor_url (instance : option dict) (w : World) (st : State) :
  __init__ instance w fresh = (Ok (), st) ->
  let inst := match instance with Some i => i | None => default [] (yaml_instance w) end in
  exists host url port,
    (url = no_auth_url inst host \/ url = https_url inst host) /\
    self st !! "kubelet_api_url" = Some (PStr url) /\
    self st !! "kubelet_host" = Some (PStr (lstrip "/" (before_colon (py_str host)))) /\
    py_fmt_d (dict_get_default inst "port" (PInt 4194)) = Ok port /\
    self st !! "cadvisor_url" =
      Some (PStr (py_str (dict_get_default inst "method" (PStr "http")) +:+ "://" +:+
                  lstrip "/" (before_colon (py_str host)) +:+ ":" +:+ port)).
Proof.
  intros Hrun inst.
  destruct (__init___ok _ _ _ Hrun)
    as (host & url & tls & port & Hurl & Hport & _ & _ & Hapi & Hhost & _ & _ & _ & _ & _ &
        _ & Hcadvisor).
  exists host, url, port. auto.
Qed.

(** X18. A configured cadvisor [port] that is not a number, such as a
    string, makes the construction fail: formatting it with [%d] raises. *)
Theorem __init___port_not_number (instance : option dict) (w : World) (v : pyval) :
  let inst := match instance with Some i => i | None => default [] (yaml_instance w) end in
  dict_lookup inst "port" = Some v ->
  match v with PInt _ | PBool _ => False | _ => True end ->
  forall st, __init__ instance w fresh <> (Ok (), st).
Proof.
  intros inst Hport Hv st Hrun.
  destruct (__init___ok _ _ _ Hrun) as (_ & _ & _ & port & _ & Hfmt & _).
  fold inst in Hfmt. unfold dict_get_default in Hfmt. rewrite Hport in Hfmt.
  now destruct v.
Qed.

(** X19. The first identity query on an object whose construction
    succeeded sends exactly one request, the pod list of the kubelet that
    was located. *)
Theorem __init___then_get_node_info (instance : option dict) (w w' : World) (st : State) :
  __init__ instance w fresh = (Ok (), st) ->
  exists url r,
    self st !! "kubelet_api_url" = Some (PStr url) /\
    req_url r = urljoin url "/pods/" /\
    log (get_node_info w' st).2 = log st ++ [r].
Proof.
  intros Hrun.
  destruct (__init___ok _ _ _ Hrun)
    as (host & url & tls & port & _ & _ & _ & _ & Hapi & _ & Hpods & _ & Htls & _ & Hip &
        Hnm & _).
  exists url, (pods_request w' tls (urljoin url "/pods/")).
  split; [exact Hapi|]. split; [reflexivity|].
  now apply (get_node_info_refetch w' st tls _ PNone PNone).
Qed.

(** X20. With a host from the environment or from the configuration, the
    locator never contacts the apiserver: it sends the HTTP probe to that
    host, then at most the HTTPS probe, and nothing else. *)
Theorem _locate_kubelet_explicit_host (instance : dict) (w : World) (st : State)
    (tls : dict) :
  self st !! "tls_settings" = Some (PDict tls) ->
  let host := py_or (os_environ_get w "KUBERNETES_KUBELET_HOST") (dict_get instance "host") in
  truthy host = true ->
  let r1 := http_probe w tls instance host in
  let r2 := https_probe w tls instance host in
  is_kubelet_query r1 = true /\
  is_kubelet_query r2 = true /\
  (log (_locate_kubelet instance w st).2 = log st ++ [r1] \/
   log (_locate_kubelet instance w st).2 = log st ++ [r1; r2]).
Proof.
  intros Htls host Hhost r1 r2.
  assert (Hrun : _locate_kubelet instance w st = probe_kubelet instance host w st).
  { unfold _locate_kubelet, locate_host. rewrite !bind_run. unfold ask at 1.
    cbv beta iota zeta. fold host. now rewrite Hhost. }
  rewrite Hrun, (probe_kubelet_run _ _ _ _ _ Htls). fold r1 r2.
  split; [reflexivity|]. split; [reflexivity|].
  destruct (requests_get w r1); [now left|].
  right. cbv zeta. destruct (requests_get w r2); cbn; now rewrite <- app_assoc.
Qed.

End Properties.

(** * Evaluation on concrete inputs *)

Lemma extract_event_tags_spec_witness :
  event_typed killing_event = true /\
  extract_event_tags (lib := sample_lib) killing_event =
    Ok ["reason:killing"; "namespace:ns"; "node_name:node1"; "object_type:pod"].
Proof.
  split; [reflexivity|].
  exact (proj1 (extract_event_tags_spec (lib := sample_lib) killing_event) eq_refl).
Defined.

Lemma perform_kubelet_query_auth_witness :
  exists r,
    log (perform_kubelet_query (lib := sample_lib) "https://node1:10250/healthz"
           (PBool true) 10 all_refused (object_with [("verify", PBool true)])).2 = [r] /\
    req_headers r = Some [("Authorization", "Bearer tok")].
Proof.
  destruct (perform_kubelet_query_auth (lib := sample_lib) "https://node1:10250/healthz"
              (PBool true) 10 all_refused (object_with [("verify", PBool true)])
              [("verify", PBool true)] eq_refl)
    as (r & Hrun & _ & _ & _ & Hhttps & _).
  exists r. split.
  - now rewrite Hrun.
  - exact (Hhttps eq_refl eq_refl).
Defined.

Lemma retrieve_json_auth_spec_witness :
  fst (retrieve_json_auth (lib := sample_lib) "https://kubernetes/api/v1/nodes"
         (PStr "tok") 10 PNone (world_of (answer 500 None)) fresh) =
    Raise (HTTPError 500) /\
  fst (retrieve_json_auth (lib := sample_lib) "https://kubernetes/api/v1/nodes"
         (PStr "tok") 10 PNone (world_of (answer 200 (Some no_nodes))) fresh) =
    Ok no_nodes.
Proof.
  split.
  - destruct (retrieve_json_auth_spec (lib := sample_lib) "https://kubernetes/api/v1/nodes"
                (PStr "tok") 10 PNone (world_of (answer 500 None)) fresh)
      as (r & _ & _ & _ & _ & _ & Hresp).
    destruct (Hresp _ eq_refl) as [Hraise _]. apply Hraise. cbn. lia.
  - destruct (retrieve_json_auth_spec (lib := sample_lib) "https://kubernetes/api/v1/nodes"
                (PStr "tok") 10 PNone (world_of (answer 200 (Some no_nodes))) fresh)
      as (r & _ & _ & _ & _ & _ & Hresp).
    destruct (Hresp _ eq_refl) as [_ Hok]. apply Hok; [cbn; lia|reflexivity].
Defined.

(** C4 as stated fails: a response of status 300, which is not 2xx, with a
    JSON body is returned, not raised. *)
Lemma retrieve_json_auth_not_every_non_2xx :
  ~ (forall (get : Request -> result Response) (resp : Response),
       (forall r, get r = Ok resp) ->
       ~ (200 <= status_code resp < 300)%Z ->
       is_ok (fst (retrieve_json_auth (lib := sample_lib) "https://kubernetes/api/v1/nodes"
                     (PStr "tok") 10 PNone (world_of get) fresh)) = false).
Proof.
  intros Hclaim.
  specialize (Hclaim (answer 300 (Some no_nodes))
                {| status_code := 300; json_body := Some no_nodes |}
                (fun _ => eq_refl)).
  cbn in Hclaim. discriminate Hclaim. lia.
Qed.

Lemma _init_tls_settings_spec_witness :
  path_exists world_with_cert_files "" = false /\
  path_typed cert_instance "kubelet_client_crt" = true /\
  path_typed cert_instance "kubelet_client_key" = true /\
  is_ok (fst (_init_tls_settings cert_instance world_with_cert_files fresh)) = true /\
  forall tls st',
    _init_tls_settings cert_instance world_with_cert_files fresh = (Ok tls, st') ->
    exists d, tls = PDict d /\
      dict_lookup d "kubelet_client_cert" =
        Some (PTuple [PStr "/etc/kubelet/client.crt"; PStr "/etc/kubelet/client.key"]) /\
      dict_lookup d "verify" = Some (PBool true).
Proof.
  destruct (_init_tls_settings_spec cert_instance world_with_cert_files fresh eq_refl)
    as (Hsound & Htotal & _).
  split; [reflexivity|]. split; [reflexivity|]. split; [reflexivity|].
  split; [exact (Htotal eq_refl eq_refl)|].
  intros tls st' Hrun. destruct (Hsound tls st' Hrun) as (_ & d & Hd & Hcert & Hverify).
  exists d. auto.
Defined.


Lemma __init___discovery_failure_witness :
  exists e st,
    __init__ (lib := sample_lib) (Some node1_instance) all_refused fresh = (Raise e, st) /\
    length (log st) = 2 /\
    self st !! "kubelet_api_url" = None.
Proof.
  destruct (__init__ (lib := sample_lib) (Some node1_instance) all_refused fresh)
    as [res st] eqn:Hrun.
  destruct (__init___discovery_failure (lib := sample_lib) (Some node1_instance) all_refused
              res st Hrun) as ([e ->] & Hurl & _).
  - intros r _ _. reflexivity.
  - exists e, st. split; [reflexivity|]. split; [|exact Hurl].
    apply (f_equal (fun p => length (log p.2))) in Hrun. cbn in Hrun. now rewrite <- Hrun.
Defined.

Lemma get_node_info_spec_witness :
  get_node_info (lib := sample_lib) (world_of (answer 200 (Some node_a_pods)))
    (object_with [("verify", PBool true)]) =
    (Ok (PStr "10.0.0.5", PStr "node-a"),
     with_identity
       (logged (object_with [("verify", PBool true)])
          (pods_request (lib := sample_lib) (world_of (answer 200 (Some node_a_pods)))
             [("verify", PBool true)] "http://node1:10255/pods/"))
       (PStr "10.0.0.5") (PStr "node-a")) /\
  get_node_info (lib := sample_lib) all_refused (object_with [("verify", PBool true)]) =
    (Ok (PNone, PNone),
     logged (object_with [("verify", PBool true)])
       (pods_request (lib := sample_lib) all_refused [("verify", PBool true)]
          "http://node1:10255/pods/")).
Proof.
  split.
  - destruct (get_node_info_spec (lib := sample_lib)
                (world_of (answer 200 (Some node_a_pods)))
                (object_with [("verify", PBool true)]) [("verify", PBool true)]
                "http://node1:10255/pods/" (PStr "p1") PNone PNone
                (conj eq_refl (conj eq_refl eq_refl)) eq_refl eq_refl eq_refl)
      as [_ Hfound].
    exact (proj1 (Hfound
             [PDict [("metadata", PDict [("name", PStr "other")]);
                     ("status", PDict [("hostIP", PStr "10.0.0.9")]);
                     ("spec", PDict [("nodeName", PStr "node-b")])]]
             [("metadata", PDict [("name", PStr "p1")]);
              ("status", PDict [("hostIP", PStr "10.0.0.5")]);
              ("spec", PDict [("nodeName", PStr "node-a")])]
             [] [("name", PStr "p1")] [("hostIP", PStr "10.0.0.5")]
             [("nodeName", PStr "node-a")]
             eq_refl eq_refl eq_refl eq_refl eq_refl eq_refl)).
  - destruct (get_node_info_spec (lib := sample_lib) all_refused
                (object_with [("verify", PBool true)]) [("verify", PBool true)]
                "http://node1:10255/pods/" (PStr "p1") PNone PNone
                (conj eq_refl (conj eq_refl eq_refl)) eq_refl eq_refl eq_refl)
      as [Hfail _].
    exact (proj1 (Hfail _ eq_refl)).
Defined.

(** C2 as stated fails: with the HTTP probe refused and the HTTPS probe
    answered with status 500, both probes failed in the sense of the
    specification, yet the construction succeeds. *)
Lemma __init___non_2xx_probe_succeeds :
  ~ (forall (get : Request -> result Response) (res : result unit) (st : State),
       __init__ (lib := sample_lib) (Some node1_instance) (world_of get) fresh = (res, st) ->
       (forall r, r ∈ log st -> is_kubelet_query r = true -> probe_failed (get r) = true) ->
       is_ok res = false).
Proof.
  intros Hclaim.
  specialize (Hclaim refused_then_500
                (fst (__init__ (lib := sample_lib) (Some node1_instance)
                        (world_of refused_then_500) fresh))
                (snd (__init__ (lib := sample_lib) (Some node1_instance)
                        (world_of refused_then_500) fresh))
                (surjective_pairing _)).
  assert (Hok : is_ok (fst (__init__ (lib := sample_lib) (Some node1_instance)
                              (world_of refused_then_500) fresh)) = true)
    by (vm_compute; reflexivity).
  rewrite Hclaim in Hok; [discriminate|].
  intros r Hin _.
  assert (Hlog : log (snd (__init__ (lib := sample_lib) (Some node1_instance)
                             (world_of refused_then_500) fresh)) =
                 [http_probe (lib := sample_lib) (world_of refused_then_500)
                    [("verify", PBool true)] node1_instance (PStr "node1");
                  https_probe (lib := sample_lib) (world_of refused_then_500)
                    [("verify", PBool true)] node1_instance (PStr "node1")])
    by (vm_compute; reflexivity).
  rewrite Hlog in Hin.
  apply elem_of_cons in Hin as [-> | Hin]; [reflexivity|].
  apply list_elem_of_singleton in Hin as ->. reflexivity.
Qed.

Lemma _locate_kubelet_probes_witness :
  fst (_locate_kubelet (lib := sample_lib) node1_instance (world_of https_only)
         (object_with [("verify", PBool true)])) = Ok "https://node1:10250" /\
  fst (_locate_kubelet (lib := sample_lib) node1_instance (world_of (answer 200 None))
         (object_with [("verify", PBool true)])) = Ok "http://node1:10255".
Proof.
  split.
  - destruct (_locate_kubelet_probes (lib := sample_lib) node1_instance (world_of https_only)
                (object_with [("verify", PBool true)]) (object_with [("verify", PBool true)])
                [("verify", PBool true)] (PStr "node1") eq_refl eq_refl)
      as (_ & _ & _ & _ & _ & _ & _ & _ & _ & Hfail).
    destruct (Hfail _ eq_refl) as [Hhttps _]. now rewrite (Hhttps _ eq_refl).
  - destruct (_locate_kubelet_probes (lib := sample_lib) node1_instance
                (world_of (answer 200 None))
                (object_with [("verify", PBool true)]) (object_with [("verify", PBool true)])
                [("verify", PBool true)] (PStr "node1") eq_refl eq_refl)
      as (_ & _ & _ & _ & _ & _ & _ & _ & Hhttp & _).
    now rewrite (Hhttp _ eq_refl).
Defined.

(** C1 as stated fails: when the HTTP probe is answered with status 500,
    which is not 2xx, the run sends no HTTPS probe. *)
Lemma _locate_kubelet_non_2xx_no_https_probe :
  ~ (forall (get : Request -> result Response) (resp : Response),
       (forall r, get r = Ok resp) ->
       ~ (200 <= status_code resp < 300)%Z ->
       exists r,
         r ∈ log (_locate_kubelet (lib := sample_lib) node1_instance (world_of get)
                    (object_with [("verify", PBool true)])).2 /\
         url_scheme (req_url r) = "https").
Proof.
  intros Hclaim.
  destruct (Hclaim (answer 500 None) {| status_code := 500; json_body := None |}
              (fun _ => eq_refl)) as (r & Hin & Hscheme).
  - cbn. lia.
  - vm_compute in Hin. apply list_elem_of_singleton in Hin. subst r. discriminate Hscheme.
Qed.

Lemma kubelet_port_shared_witness :
  log (probe_kubelet (lib := sample_lib) [("kubelet_port", PInt 10443)] (PStr "node1")
         all_refused (object_with [("verify", PBool true)])).2 =
    [http_probe (lib := sample_lib) all_refused [("verify", PBool true)]
       [("kubelet_port", PInt 10443)] (PStr "node1");
     https_probe (lib := sample_lib) all_refused [("verify", PBool true)]
       [("kubelet_port", PInt 10443)] (PStr "node1")] /\
  req_url (http_probe (lib := sample_lib) all_refused [("verify", PBool true)]
             [("kubelet_port", PInt 10443)] (PStr "node1")) =
    "http://node1:10443/healthz" /\
  req_url (https_probe (lib := sample_lib) all_refused [("verify", PBool true)]
             [("kubelet_port", PInt 10443)] (PStr "node1")) =
    "https://node1:10443/healthz".
Proof.
  destruct (kubelet_port_shared (lib := sample_lib) [("kubelet_port", PInt 10443)]
              (PStr "node1") all_refused (object_with [("verify", PBool true)])
              [("verify", PBool true)] eq_refl) as (Hlog & Hport & _).
  split; [exact (Hlog _ eq_refl)|].
  exact (Hport (PInt 10443) eq_refl).
Defined.

Lemma extract_kube_labels_spec_witness :
  pods_list_typed p1_pods_list = true /\
  is_ok (extract_kube_labels (lib := sample_lib) p1_pods_list (Some ["b"])) = true /\
  forall labels,
    extract_kube_labels (lib := sample_lib) p1_pods_list (Some ["b"]) = Ok labels ->
    labels !! "ns/p1" = Some ["kube_a:1"] /\ labels !! "ns/p2" = None.
Proof.
  pose proof (extract_kube_labels_spec (lib := sample_lib) p1_pods_list (Some ["b"]))
    as (Hlookup & Htotal & _).
  split; [reflexivity|]. split; [exact (Htotal eq_refl)|].
  intros labels Hrun. split.
  - exact (Hlookup labels Hrun "ns/p1").
  - exact (Hlookup labels Hrun "ns/p2").
Defined.

Lemma perform_kubelet_query_uninspected_witness :
  fst (perform_kubelet_query (lib := sample_lib) "http://node1:10255/pods/" (PBool true) 10
         (world_of (answer 500 None)) (object_with [("verify", PBool true)])) =
    Ok {| status_code := 500; json_body := None |} /\
  perform_kubelet_query (lib := sample_lib) "http://node1:10255/pods/" (PBool true) 10
    (world_of (answer 500 None)) fresh = (Raise AttributeError, fresh).
Proof.
  destruct (perform_kubelet_query_uninspected (lib := sample_lib) "http://node1:10255/pods/"
              (PBool true) 10 (world_of (answer 500 None))
              (object_with [("verify", PBool true)])) as [_ Hset].
  destruct (Hset [("verify", PBool true)] eq_refl) as (r & Hurl & _ & _ & _ & _ & Hres).
  split.
  - rewrite Hres. reflexivity.
  - exact (proj1 (perform_kubelet_query_uninspected (lib := sample_lib)
                    "http://node1:10255/pods/" (PBool true) 10
                    (world_of (answer 500 None)) fresh) eq_refl).
Defined.

Lemma retrieve_pods_list_spec_witness :
  retrieve_pods_list (lib := sample_lib) all_refused fresh = (Raise AttributeError, fresh) /\
  fst (retrieve_pods_list (lib := sample_lib) (world_of (answer 500 (Some no_nodes)))
         (object_with [("verify", PBool true)])) = Ok no_nodes.
Proof.
  split.
  - exact (proj1 (retrieve_pods_list_spec (lib := sample_lib) all_refused fresh) eq_refl).
  - destruct (proj2 (retrieve_pods_list_spec (lib := sample_lib)
                       (world_of (answer 500 (Some no_nodes)))
                       (object_with [("verify", PBool true)]))
                [("verify", PBool true)] "http://node1:10255/pods/" eq_refl eq_refl)
      as (_ & _ & Hresp).
    exact (Hresp _ eq_refl).
Defined.

Lemma get_kube_labels_spec_witness :
  fst (get_kube_labels (lib := sample_lib) (Some ["b"])
         (world_of (answer 200 (Some p1_pods_list))) (object_with [("verify", PBool true)])) =
    Ok {[ "ns/p1" := ["kube_a:1"] ]}.
Proof.
  destruct (get_kube_labels_spec (lib := sample_lib) (Some ["b"])
              (world_of (answer 200 (Some p1_pods_list)))
              (object_with [("verify", PBool true)])
              [("verify", PBool true)] "http://node1:10255/pods/" eq_refl eq_refl)
    as (_ & _ & Hresp).
  rewrite (Hresp _ p1_pods_list eq_refl eq_refl). reflexivity.
Defined.

Lemma retrieve_json_auth_errors_witness :
  fst (retrieve_json_auth (lib := sample_lib) "https://kubernetes/api/v1/nodes"
         (PStr "tok") 10 PNone (world_of (answer 200 None)) fresh) = Raise ValueError.
Proof.
  destruct (retrieve_json_auth_errors (lib := sample_lib) "https://kubernetes/api/v1/nodes"
              (PStr "tok") 10 PNone (world_of (answer 200 None)) fresh) as (_ & _ & Hbody).
  apply (Hbody _ eq_refl); [cbn; lia|reflexivity].
Defined.

Lemma extract_kube_labels_entries_witness :
  ["kube_a:1"] <> [] /\
  exists pod pod_tags,
    pod ∈ pod_items_of p1_pods_list /\
    pod_entry (lib := sample_lib) ["b"] pod = Some ("ns/p1", pod_tags).
Proof.
  assert (Hkey : ({[ "ns/p1" := ["kube_a:1"] ]} : gmap string (list string)) !! "ns/p1" =
                 Some ["kube_a:1"]) by (vm_compute; reflexivity).
  destruct (extract_kube_labels_entries (lib := sample_lib) p1_pods_list
              (Some ["b"]) {[ "ns/p1" := ["kube_a:1"] ]} "ns/p1" ["kube_a:1"]
              eq_refl Hkey) as (Hne & Hpod & _).
  split; [exact Hne|exact Hpod].
Defined.

Lemma extract_kube_labels_no_items_witness :
  extract_kube_labels (lib := sample_lib) (PDict [("items", PNone)]) None = Ok ∅ /\
  extract_kube_labels (lib := sample_lib) (PList []) None = Raise AttributeError.
Proof.
  destruct (extract_kube_labels_no_items (lib := sample_lib) (PDict [("items", PNone)]) None)
    as [Hnone _].
  destruct (extract_kube_labels_no_items (lib := sample_lib) (PList []) None) as [_ Hlist].
  split; [exact (Hnone _ eq_refl eq_refl)|exact (Hlist eq_refl)].
Defined.

Lemma extract_event_tags_ill_typed_witness :
  extract_event_tags (lib := sample_lib) [("reason", PNone)] = Raise AttributeError /\
  extract_event_tags (lib := sample_lib) [("reason", PStr "Killing"); ("metadata", PNone)] =
    Raise TypeError.
Proof.
  split.
  - exact (proj1 (extract_event_tags_ill_typed (lib := sample_lib) [("reason", PNone)])
             PNone eq_refl eq_refl).
  - exact (proj2 (extract_event_tags_ill_typed (lib := sample_lib)
                    [("reason", PStr "Killing"); ("metadata", PNone)])
             PNone eq_refl eq_refl I).
Defined.

Lemma node_hostname_count_witness :
  node_hostname (PDict [("kind", PStr "NodeList")]) = Raise KeyError /\
  node_hostname no_nodes = Ok PNone.
Proof.
  split.
  - exact (proj1 (node_hostname_count [("kind", PStr "NodeList")]) eq_refl).
  - apply (proj2 (node_hostname_count [("items", PList [])]) [] eq_refl). cbn. lia.
Defined.

Lemma node_hostname_first_witness :
  node_hostname (one_node "node-a") = Ok (PStr "node-a").
Proof.
  destruct (node_hostname_first
              [("items",
                PList [PDict [("status",
                               PDict [("addresses",
                                       PList [PDict [("type", PStr "InternalIP");
                                                     ("address", PStr "10.0.0.5")];
                                              PDict [("type", PStr "Hostname");
                                                     ("address", PStr "node-a")]])])]])]
              [("status",
                PDict [("addresses",
                        PList [PDict [("type", PStr "InternalIP");
                                      ("address", PStr "10.0.0.5")];
                               PDict [("type", PStr "Hostname");
                                      ("address", PStr "node-a")]])])]
              [("addresses",
                PList [PDict [("type", PStr "InternalIP"); ("address", PStr "10.0.0.5")];
                       PDict [("type", PStr "Hostname"); ("address", PStr "node-a")]])]
              [PDict [("type", PStr "InternalIP"); ("address", PStr "10.0.0.5")];
               PDict [("type", PStr "Hostname"); ("address", PStr "node-a")]]
              eq_refl eq_refl eq_refl) as [_ Hfirst].
  exact (Hfirst [PDict [("type", PStr "InternalIP"); ("address", PStr "10.0.0.5")]]
           [("type", PStr "Hostname"); ("address", PStr "node-a")] []
           eq_refl eq_refl eq_refl).
Defined.

Lemma locate_host_total_witness :
  exists host st',
    locate_host (lib := sample_lib) [] all_refused (object_with [("verify", PBool true)]) =
      (Ok host, st') /\
    truthy host = true.
Proof.
  destruct (locate_host_total (lib := sample_lib) [] all_refused
              (object_with [("verify", PBool true)]) [("verify", PBool true)] (PBool true)
              eq_refl eq_refl) as (host & st' & Hrun & _ & _ & Hhost).
  exists host, st'. split; [exact Hrun|]. apply Hhost. discriminate.
Defined.

Lemma get_node_info_no_match_witness :
  fst (get_node_info (lib := sample_lib) (world_of (answer 200 (Some (pods_of [other_pod]))))
         (object_with [("verify", PBool true)])) = Ok (PNone, PNone).
Proof.
  destruct (get_node_info_no_match (lib := sample_lib)
              (world_of (answer 200 (Some (pods_of [other_pod]))))
              (object_with [("verify", PBool true)]) [("verify", PBool true)]
              "http://node1:10255/pods/" (PStr "p1") PNone PNone [other_pod]
              (conj eq_refl (conj eq_refl eq_refl)) eq_refl eq_refl eq_refl eq_refl eq_refl)
    as [Hrun _].
  now rewrite Hrun.
Defined.

Lemma get_node_info_unset_hostname_witness :
  fst (get_node_info (lib := sample_lib)
         (world_of (answer 200 (Some (pods_of [other_pod; nameless_pod]))))
         (object_without_hostname [("verify", PBool true)])) =
    Ok (PStr "10.0.0.7", PStr "node-c").
Proof.
  exact (get_node_info_unset_hostname (lib := sample_lib)
           (world_of (answer 200 (Some (pods_of [other_pod; nameless_pod]))))
           (object_without_hostname [("verify", PBool true)]) [("verify", PBool true)]
           "http://node1:10255/pods/" [other_pod] []
           [("metadata", PDict [("namespace", PStr "ns")]);
            ("status", PDict [("hostIP", PStr "10.0.0.7")]);
            ("spec", PDict [("nodeName", PStr "node-c")])]
           [("namespace", PStr "ns")] [("hostIP", PStr "10.0.0.7")]
           [("nodeName", PStr "node-c")]
           (conj eq_refl (conj eq_refl eq_refl)) eq_refl eq_refl eq_refl eq_refl eq_refl
           eq_refl eq_refl eq_refl).
Defined.

Lemma get_node_info_null_ip_witness :
  fst (get_node_info (lib := sample_lib) (world_of (answer 200 (Some (pods_of [null_ip_pod]))))
         (object_with [("verify", PBool true)])) = Ok (PNone, PStr "node-a").
Proof.
  destruct (get_node_info_null_ip (lib := sample_lib)
              (world_of (answer 200 (Some (pods_of [null_ip_pod]))))
              (object_with [("verify", PBool true)]) [("verify", PBool true)]
              "http://node1:10255/pods/" (PStr "p1") PNone PNone [] []
              [("metadata", PDict [("name", PStr "p1")]);
               ("status", PDict [("hostIP", PNone)]);
               ("spec", PDict [("nodeName", PStr "node-a")])]
              [("name", PStr "p1")] [("hostIP", PNone)] [("nodeName", PStr "node-a")]
              (conj eq_refl (conj eq_refl eq_refl)) eq_refl eq_refl eq_refl eq_refl eq_refl
              eq_refl eq_refl eq_refl eq_refl eq_refl) as [Hrun _].
  now rewrite Hrun.
Defined.

Lemma get_node_info_scan_raises_witness :
  fst (get_node_info (lib := sample_lib)
         (world_of (answer 200 (Some (PDict [("items", PInt 5)]))))
         (object_with [("verify", PBool true)])) = Raise TypeError.
Proof.
  destruct (get_node_info_scan_raises (lib := sample_lib)
              (world_of (answer 200 (Some (PDict [("items", PInt 5)]))))
              (object_with [("verify", PBool true)]) [("verify", PBool true)]
              "http://node1:10255/pods/" PNone PNone (PInt 5)
              eq_refl eq_refl eq_refl eq_refl eq_refl eq_refl) as [Hiter _].
  now rewrite (Hiter TypeError eq_refl).
Defined.

Lemma get_node_info_partial_witness :
  exists st1,
    get_node_info (lib := sample_lib) (world_of (answer 200 (Some (pods_of [null_spec_pod]))))
      (object_with [("verify", PBool true)]) = (Raise AttributeError, st1) /\
    self st1 !! "_node_ip" = Some (PStr "10.0.0.5") /\
    self st1 !! "_node_name" = Some PNone.
Proof.
  exact (get_node_info_partial (lib := sample_lib)
           (world_of (answer 200 (Some (pods_of [null_spec_pod]))))
           (object_with [("verify", PBool true)]) [("verify", PBool true)]
           "http://node1:10255/pods/" (PStr "p1") PNone PNone PNone [] []
           [("metadata", PDict [("name", PStr "p1")]);
            ("status", PDict [("hostIP", PStr "10.0.0.5")]);
            ("spec", PNone)]
           [("name", PStr "p1")] [("hostIP", PStr "10.0.0.5")]
           (conj eq_refl (conj eq_refl eq_refl)) eq_refl eq_refl eq_refl eq_refl eq_refl
           eq_refl eq_refl eq_refl eq_refl eq_refl).
Defined.


Lemma __init___cadvisor_url_witness :
  exists st host,
    __init__ (lib := sample_lib) (Some node1_instance) (world_of https_only) fresh =
      (Ok (), st) /\
    self st !! "cadvisor_url" =
      Some (PStr ("http://" +:+ lstrip "/" (before_colon (py_str (lib := sample_lib) host))
                  +:+ ":4194")).
Proof.
  destruct (__init__ (lib := sample_lib) (Some node1_instance) (world_of https_only) fresh)
    as [res st] eqn:Hrun.
  assert (Hres : res = Ok ()).
  { apply (f_equal fst) in Hrun. vm_compute in Hrun. now rewrite <- Hrun. }
  subst res.
  destruct (__init___cadvisor_url (lib := sample_lib) _ _ _ Hrun)
    as (host & url & port & _ & _ & _ & Hport & Hcadvisor).
  exists st, host. split; [reflexivity|].
  injection Hport as <-. exact Hcadvisor.
Defined.

Lemma __init___port_not_number_witness :
  is_ok (fst (__init__ (lib := sample_lib)
                (Some [("host", PStr "node1"); ("port", PStr "4194")])
                (world_of (answer 200 None)) fresh)) = false.
Proof.
  destruct (__init__ (lib := sample_lib)
              (Some [("host", PStr "node1"); ("port", PStr "4194")])
              (world_of (answer 200 None)) fresh) as [[[]|e] st] eqn:Hrun; [|reflexivity].
  destruct (__init___port_not_number (lib := sample_lib)
              (Some [("host", PStr "node1"); ("port", PStr "4194")])
              (world_of (answer 200 None)) (PStr "4194") eq_refl I st Hrun).
Defined.

Lemma __init___then_get_node_info_witness :
  exists st,
    __init__ (lib := sample_lib) (Some node1_instance) (world_of (answer 200 None)) fresh =
      (Ok (), st) /\
    length (log (get_node_info (lib := sample_lib) all_refused st).2) = S (length (log st)).
Proof.
  destruct (__init__ (lib := sample_lib) (Some node1_instance) (world_of (answer 200 None))
              fresh) as [res st] eqn:Hrun.
  assert (Hres : res = Ok ()).
  { apply (f_equal fst) in Hrun. vm_compute in Hrun. now rewrite <- Hrun. }
  subst res.
  destruct (__init___then_get_node_info (lib := sample_lib) _ _ all_refused _ Hrun)
    as (url & r & _ & _ & Hlog).
  exists st. split; [reflexivity|]. rewrite Hlog, length_app. cbn. lia.
Defined.

Lemma _locate_kubelet_explicit_host_witness :
  length (log (_locate_kubelet (lib := sample_lib) node1_instance
                 (world_of (answer 200 (Some (one_node "node-a"))))
                 (object_with [("verify", PBool true)])).2) = 1.
Proof.
  destruct (_locate_kubelet_explicit_host (lib := sample_lib) node1_instance
              (world_of (answer 200 (Some (one_node "node-a"))))
              (object_with [("verify", PBool true)]) [("verify", PBool true)]
              eq_refl eq_refl) as (_ & _ & [Hlog | Hlog]).
  - now rewrite Hlog.
  - apply (f_equal (@length Request)) in Hlog. vm_compute in Hlog. discriminate Hlog.
Defined.
